(** * LoRa gas sensor node (lora_gaz.ino): model and verification

    The sketch runs on an ATmega328 (avr-gcc): [int] is a 16-bit two's
    complement integer, [char] is one byte, [unsigned long] is 32 bits.
    The functions of the sketch are embedded as state-passing programs in a
    small state monad.  Everything the sketch does to the outside world
    (pins, serial console, radio module, low-power halt) is logged as a
    chronological trace of events; everything the outside world decides
    (analog samples, radio status codes, whether the status query outlasts
    the software timer, the compiler's argument evaluation order) is read
    from an environment record. *)

From Stdlib Require Import ZArith List String Bool Lia Arith.
Import ListNotations.

Open Scope Z_scope.

(** ** 16-bit [int] arithmetic *)

Module Int16.

Definition min_signed : Z := -32768.
Definition max_signed : Z := 32767.
Definition modulus : Z := 65536.

Definition in_range (z : Z) : Prop := min_signed <= z <= max_signed.

(** The value an [int] object holds after [z] is stored into it. *)
Definition norm (z : Z) : Z := (z + 32768) mod modulus - 32768.

Definition add (a b : Z) : Z := norm (a + b).
Definition mul (a b : Z) : Z := norm (a * b).
(** [>>] on a signed operand is an arithmetic shift with avr-gcc. *)
Definition shr (a n : Z) : Z := Z.shiftr (norm a) n.
Definition and (a b : Z) : Z := Z.land (norm a) (norm b).
Definition lt (a b : Z) : bool := norm a <? norm b.


End Int16.

(** [char] narrowing: the byte left in memory, as [sendBytes] reads it
    back through its [const uint8_t*] parameter. *)
Definition to_byte (z : Z) : Z := z mod 256.

(** Conversion of an [int] to the [unsigned long] parameter of [delay]. *)
Definition to_ulong (z : Z) : Z := z mod 4294967296.

(** Conversions of an [int] to the parameters of [ttn.sendBytes], declared
    in TheThingsNetwork.h as
    [sendBytes(const uint8_t *payload, size_t length, port_t port, ...)]
    with [typedef uint8_t port_t]; [size_t] has 16 bits on the AVR. *)
Definition to_port (z : Z) : Z := z mod 256.
Definition to_size_t (z : Z) : Z := z mod 65536.

(** ** Pins and constants of the sketch *)

Definition gas_sensor_pin : Z := 0.
Definition temp_sensor_pin : Z := 1.
Definition DEFAULT_PORT : Z := 1.
Definition TX_PIN : Z := 2.
Definition RX_PIN : Z := 3.
Definition RST_PIN : Z := 4.
Definition HEAT_PIN : Z := 5.

Definition devAddr : string := "2601124F".
Definition nwkSKey : string := "D727E89EA217AA295B32628E666E5249".
Definition appSKey : string := "2E1CE56CADD7F8F3D69663ACC7AEA22E".

(** Bit numbers of the watchdog registers (avr/io.h, ATmega328). *)
Definition WDRF : Z := 3.
Definition WDP0 : Z := 0.
Definition WDE : Z := 3.
Definition WDCE : Z := 4.
Definition WDP3 : Z := 5.
Definition WDIE : Z := 6.

(** An 8-bit I/O register keeps the low byte of what is written. *)
Definition reg8 (z : Z) : Z := Z.land z 255.

(** ** Hardware vocabulary *)

Inductive level : Type := LOW | HIGH.
Inductive pin_mode : Type := INPUT | OUTPUT.
Inductive analog_ref : Type := DEFAULT | INTERNAL | EXTERNAL.
Inductive sleep_mode_t : Type :=
  SLEEP_MODE_IDLE | SLEEP_MODE_ADC | SLEEP_MODE_PWR_DOWN | SLEEP_MODE_PWR_SAVE.
Inductive eval_order : Type := LeftToRight | RightToLeft.

(** Full-scale voltage of the converter, in millivolts, as the sketch
    documents the two references it uses ("//1.1V", "//5V"). *)
Definition reference_millivolts (r : analog_ref) : option Z :=
  match r with
  | INTERNAL => Some 1100
  | DEFAULT => Some 5000
  | EXTERNAL => None
  end.

Inductive event : Type :=
| EvPinMode (pin : Z) (m : pin_mode)
| EvDigitalWrite (pin : Z) (l : level)
| EvDelay (ms : Z)
| EvAnalogReference (r : analog_ref)
| EvAnalogRead (pin : Z) (val : Z)
| EvDebugBegin (baud : Z)
| EvPrint (s : string)
| EvPrintDec (n : Z)
| EvPrintln (s : string)
| EvLoraSerialBegin (baud : Z)
| EvTimer2Set (ms : Z)
| EvTimer2Start
| EvTimer2Stop
| EvShowStatus
| EvPersonalize (addr nwk app : string)
| EvSendBytes (payload : list Z) (length port : Z) (status : Z)
| EvCli
| EvSei
| EvWriteMCUSR (v : Z)
| EvWriteWDTCSR (v : Z)
| EvSetSleepMode (m : sleep_mode_t)
| EvSleepEnable
| EvHalt
| EvSleepDisable
| EvPowerAllEnable.

(** ** Environment and machine state *)

Record Env : Type := mkEnv {
  (** [analog_in k r p]: the code the converter returns for the [k]-th
      conversion of the run, taken on pin [p] under reference [r]. *)
  analog_in : nat -> analog_ref -> Z -> Z;
  (** [uplink_status k data len port]: the status [ttn.sendBytes] returns
      for the [k]-th transmission of the run. *)
  uplink_status : nat -> list Z -> Z -> Z -> Z;
  (** Whether [ttn.showStatus()] is still running when the 15 s software
      timer expires. *)
  status_query_times_out : bool;
  (** The order in which the argument expressions of a call are evaluated,
      here those of [loraSendValues(getGasValue(),getTempValue(), 1)].
      C++ leaves it unspecified; it is the compiler's choice, and GCC, the
      compiler of the Arduino AVR toolchain, usually takes the last
      argument first. *)
  arg_order : eval_order
}.

Record State : Type := mkState {
  wdt_cpt : Z;          (* volatile int wdt_cpt *)
  f_wdt : Z;            (* volatile int f_wdt *)
  MCUSR : Z;
  WDTCSR : Z;
  irq_enabled : bool;   (* global interrupt flag, cli()/sei() *)
  aref : analog_ref;    (* reference selected by analogReference *)
  timer2_ms : Z;        (* MsTimer2 period *)
  timer2_on : bool;     (* MsTimer2 running *)
  adc_reads : nat;      (* conversions done so far *)
  uplinks : nat;        (* transmissions done so far *)
  trace : list event    (* oldest event first *)
}.

Definition set_wdt_cpt (v : Z) (s : State) : State :=
  mkState v (f_wdt s) (MCUSR s) (WDTCSR s) (irq_enabled s) (aref s)
          (timer2_ms s) (timer2_on s) (adc_reads s) (uplinks s) (trace s).
Definition set_f_wdt (v : Z) (s : State) : State :=
  mkState (wdt_cpt s) v (MCUSR s) (WDTCSR s) (irq_enabled s) (aref s)
          (timer2_ms s) (timer2_on s) (adc_reads s) (uplinks s) (trace s).
Definition set_MCUSR (v : Z) (s : State) : State :=
  mkState (wdt_cpt s) (f_wdt s) v (WDTCSR s) (irq_enabled s) (aref s)
          (timer2_ms s) (timer2_on s) (adc_reads s) (uplinks s) (trace s).
Definition set_WDTCSR (v : Z) (s : State) : State :=
  mkState (wdt_cpt s) (f_wdt s) (MCUSR s) v (irq_enabled s) (aref s)
          (timer2_ms s) (timer2_on s) (adc_reads s) (uplinks s) (trace s).
Definition set_irq (b : bool) (s : State) : State :=
  mkState (wdt_cpt s) (f_wdt s) (MCUSR s) (WDTCSR s) b (aref s)
          (timer2_ms s) (timer2_on s) (adc_reads s) (uplinks s) (trace s).
Definition set_aref (r : analog_ref) (s : State) : State :=
  mkState (wdt_cpt s) (f_wdt s) (MCUSR s) (WDTCSR s) (irq_enabled s) r
          (timer2_ms s) (timer2_on s) (adc_reads s) (uplinks s) (trace s).
Definition set_timer2_ms (v : Z) (s : State) : State :=
  mkState (wdt_cpt s) (f_wdt s) (MCUSR s) (WDTCSR s) (irq_enabled s) (aref s)
          v (timer2_on s) (adc_reads s) (uplinks s) (trace s).
Definition set_timer2_on (b : bool) (s : State) : State :=
  mkState (wdt_cpt s) (f_wdt s) (MCUSR s) (WDTCSR s) (irq_enabled s) (aref s)
          (timer2_ms s) b (adc_reads s) (uplinks s) (trace s).
Definition set_adc_reads (n : nat) (s : State) : State :=
  mkState (wdt_cpt s) (f_wdt s) (MCUSR s) (WDTCSR s) (irq_enabled s) (aref s)
          (timer2_ms s) (timer2_on s) n (uplinks s) (trace s).
Definition set_uplinks (n : nat) (s : State) : State :=
  mkState (wdt_cpt s) (f_wdt s) (MCUSR s) (WDTCSR s) (irq_enabled s) (aref s)
          (timer2_ms s) (timer2_on s) (adc_reads s) n (trace s).
Definition set_trace (t : list event) (s : State) : State :=
  mkState (wdt_cpt s) (f_wdt s) (MCUSR s) (WDTCSR s) (irq_enabled s) (aref s)
          (timer2_ms s) (timer2_on s) (adc_reads s) (uplinks s) t.

(** The state of the microcontroller when the sketch starts: globals as
    initialised in the source, registers and peripherals as given. *)
Definition power_on (mcusr wdtcsr : Z) : State :=
  mkState 0 0 (reg8 mcusr) (reg8 wdtcsr) true DEFAULT 0 false 0%nat 0%nat [].

(** ** The state monad of the sketch *)

Definition M (A : Type) : Type := State -> A * State.

Definition ret {A : Type} (a : A) : M A := fun s => (a, s).
Definition bind {A B : Type} (m : M A) (k : A -> M B) : M B :=
  fun s => k (fst (m s)) (snd (m s)).
Definition exec {A : Type} (m : M A) (s : State) : State := snd (m s).
Definition result {A : Type} (m : M A) (s : State) : A := fst (m s).
Definition modify (f : State -> State) : M unit := fun s => (tt, f s).
Definition emit (e : event) : M unit :=
  modify (fun s => set_trace (trace s ++ [e]) s).

Declare Scope sketch_scope.
Delimit Scope sketch_scope with sketch.
Notation "x <- m ;; k" := (bind m (fun x => k))
  (at level 61, m at next level, right associativity) : sketch_scope.
Notation "m ;; k" := (bind m (fun _ => k))
  (at level 61, right associativity) : sketch_scope.
Open Scope sketch_scope.

Definition get {A : Type} (f : State -> A) : M A := fun s => (f s, s).

Definition newline : string := String (Ascii.ascii_of_nat 10) EmptyString.

Section Sketch.

Variable env : Env.

(** ** Arduino core, AVR libc and MsTimer2 primitives *)

Definition pinMode (pin : Z) (m : pin_mode) : M unit := emit (EvPinMode pin m).
Definition digitalWrite (pin : Z) (l : level) : M unit :=
  emit (EvDigitalWrite pin l).
Definition delay (ms : Z) : M unit := emit (EvDelay ms).

Definition analogReference (r : analog_ref) : M unit :=
  modify (set_aref r) ;; emit (EvAnalogReference r).

(** One conversion: the environment supplies the code. *)
Definition analogRead (pin : Z) : M Z :=
  k <- get adc_reads ;;
  r <- get aref ;;
  let v := analog_in env k r pin in
  modify (set_adc_reads (S k)) ;;
  emit (EvAnalogRead pin v) ;;
  ret v.

Definition debugSerial_begin (baud : Z) : M unit := emit (EvDebugBegin baud).
Definition debugSerial_print (s : string) : M unit := emit (EvPrint s).
Definition debugSerial_print_dec (n : Z) : M unit := emit (EvPrintDec n).
Definition debugSerial_println (s : string) : M unit := emit (EvPrintln s).
Definition loraSerial_begin (baud : Z) : M unit := emit (EvLoraSerialBegin baud).

Definition MsTimer2_set (ms : Z) : M unit :=
  modify (set_timer2_ms ms) ;; emit (EvTimer2Set ms).
Definition MsTimer2_start : M unit :=
  modify (set_timer2_on true) ;; emit EvTimer2Start.
Definition MsTimer2_stop : M unit :=
  modify (set_timer2_on false) ;; emit EvTimer2Stop.

Definition cli : M unit := modify (set_irq false) ;; emit EvCli.
Definition sei : M unit := modify (set_irq true) ;; emit EvSei.
Definition write_MCUSR (v : Z) : M unit :=
  modify (set_MCUSR (reg8 v)) ;; emit (EvWriteMCUSR (reg8 v)).
Definition write_WDTCSR (v : Z) : M unit :=
  modify (set_WDTCSR (reg8 v)) ;; emit (EvWriteWDTCSR (reg8 v)).

Definition set_sleep_mode (m : sleep_mode_t) : M unit := emit (EvSetSleepMode m).
Definition sleep_enable : M unit := emit EvSleepEnable.
Definition sleep_disable : M unit := emit EvSleepDisable.
Definition power_all_enable : M unit := emit EvPowerAllEnable.

(** The two argument expressions [a] and [b] of a call [f(a, b, ...)], each
    with side effects, evaluated in the compiler's order. *)
Definition eval_args2 {A B : Type} (a : M A) (b : M B) : M (A * B) :=
  match arg_order env with
  | LeftToRight => x <- a ;; y <- b ;; ret (x, y)
  | RightToLeft => y <- b ;; x <- a ;; ret (x, y)
  end.

(** ** Timer/Sleep mode functions: interrupt handlers *)

(** [timeoutHandler()], the function registered with [MsTimer2::set]. *)
Definition timeoutHandler : M unit :=
  debugSerial_println ("Timeout !" ++ newline) ;;
  MsTimer2_stop.

(** The MsTimer2 overflow interrupt calls the registered function while
    the timer runs. *)
Definition MsTimer2_overflow : M unit :=
  on <- get timer2_on ;;
  if on then timeoutHandler else ret tt.

(** [ISR(WDT_vect)]: [wdt_cpt++]. *)
Definition WDT_vect : M unit :=
  c <- get wdt_cpt ;;
  modify (set_wdt_cpt (Int16.add c 1)).

(** The sleep instruction in power-down mode: the processor halts until
    the watchdog interrupt, runs its handler and resumes.  One interrupt
    is taken per halt, as the sketch documents [sleep_8s] ("sleep mode
    for 8 seconds", the watchdog period). *)
Definition sleep_cpu : M unit := emit EvHalt ;; WDT_vect.

(** [sleep_mode()] of avr/sleep.h. *)
Definition sleep_mode : M unit := sleep_enable ;; sleep_cpu ;; sleep_disable.

(** ** TheThingsNetwork collaborator *)

(** [ttn.showStatus()] blocks on the module; the software timer may
    expire meanwhile. *)
Definition ttn_showStatus : M unit :=
  emit EvShowStatus ;;
  if status_query_times_out env then MsTimer2_overflow else ret tt.

Definition ttn_personalize (addr nwk app : string) : M unit :=
  emit (EvPersonalize addr nwk app).

Definition ttn_sendBytes (data : list Z) (length port : Z) : M Z :=
  k <- get uplinks ;;
  let st := uplink_status env k data length port in
  modify (set_uplinks (S k)) ;;
  emit (EvSendBytes data length port st) ;;
  ret st.

(** ** LoRa functions *)

Definition resetRN2483 : M unit :=
  pinMode RST_PIN OUTPUT ;;
  digitalWrite RST_PIN LOW ;;
  delay 100 ;;
  digitalWrite RST_PIN HIGH ;;
  delay 100.

Definition loraInit : M unit :=
  resetRN2483 ;;
  loraSerial_begin 57600 ;;
  MsTimer2_start ;;
  ttn_showStatus ;;
  MsTimer2_stop.

Definition loraJoin : M unit := ttn_personalize devAddr nwkSKey appSKey.

Definition loraSendBytes (data : list Z) (length port : Z) : M Z :=
  ttn_sendBytes data (to_size_t length) (to_port port).

Definition loraSendByte (data : list Z) (port : Z) : M Z :=
  ttn_sendBytes data (to_size_t 1) (to_port port).

(** The initialiser of [char data[4]]. *)
Definition pack_values (gas temp : Z) : list Z :=
  [ to_byte (Int16.shr gas 8); to_byte (Int16.and gas 255);
    to_byte (Int16.shr temp 8); to_byte (Int16.and temp 255) ].

Definition loraSendValues (gas temp port : Z) : M Z :=
  let data := pack_values gas temp in
  ttn_sendBytes data (to_size_t 4) (to_port port).

(** ** Timer/Sleep mode functions *)

Definition setupWatchdog : M unit :=
  cli ;;
  (r <- get MCUSR ;; write_MCUSR (Z.land r (Z.lnot (Z.shiftl 1 WDRF)))) ;;
  (r <- get WDTCSR ;;
   write_WDTCSR (Z.lor r (Z.lor (Z.shiftl 1 WDCE) (Z.shiftl 1 WDE)))) ;;
  write_WDTCSR (Z.lor (Z.shiftl 1 WDP0) (Z.shiftl 1 WDP3)) ;;
  (r <- get WDTCSR ;; write_WDTCSR (Z.lor r (Z.shiftl 1 WDIE))) ;;
  sei.

Definition sleep_8s : M unit :=
  set_sleep_mode SLEEP_MODE_PWR_DOWN ;;
  sleep_enable ;;
  sleep_mode ;;
  sleep_disable ;;
  power_all_enable.

(** The body of the [while] of [goToSleep]. *)
Definition sleep_iteration : M unit :=
  debugSerial_print "* " ;;
  delay 100 ;;
  sleep_8s ;;
  delay 100.

(** [while(wdt_cpt<sec){ ... }].  The counter is an [int] that every pass
    increments, so a run makes at most [sec - wdt_cpt] passes; this bound
    is the fuel of the recursion, and [sleep_while_unfold] below shows
    that it never runs out. *)
Fixpoint sleep_loop (fuel : nat) (sec : Z) (s : State) : State :=
  match fuel with
  | O => s
  | S fuel' =>
      if Int16.lt (wdt_cpt s) sec
      then sleep_loop fuel' sec (exec sleep_iteration s)
      else s
  end.

Definition sleep_while (sec : Z) (s : State) : State :=
  sleep_loop (Z.to_nat (Int16.norm sec - Int16.norm (wdt_cpt s))) sec s.

Definition goToSleep (sec : Z) : M unit :=
  let sec := Int16.shr sec 3 in
  modify (set_wdt_cpt 0) ;;
  let real_period := Int16.mul 8 sec in
  debugSerial_print "Sleep (" ;;
  debugSerial_print_dec real_period ;;
  debugSerial_print "s) " ;;
  modify (sleep_while sec) ;;
  modify (set_wdt_cpt 0) ;;
  debugSerial_println "Wake up !".

(** ** Sensor/Actuator functions *)

Definition getGasValue : M Z :=
  analogReference INTERNAL ;;
  val <- analogRead gas_sensor_pin ;;
  debugSerial_print "Gas value = " ;;
  debugSerial_print_dec val ;;
  debugSerial_println "/1023" ;;
  ret val.

Definition getTempValue : M Z :=
  analogReference DEFAULT ;;
  val <- analogRead temp_sensor_pin ;;
  debugSerial_print "Temperature value = " ;;
  debugSerial_print_dec val ;;
  debugSerial_println "/1023" ;;
  ret val.

Definition heat (sec : Z) : M unit :=
  digitalWrite HEAT_PIN HIGH ;;
  delay (to_ulong (Int16.mul 1000 sec)) ;;
  digitalWrite HEAT_PIN LOW.

(** ** setup() and loop() *)

Definition setup : M unit :=
  debugSerial_begin 9600 ;;
  pinMode HEAT_PIN OUTPUT ;;
  MsTimer2_set 15000 ;;
  modify (set_f_wdt 0) ;;
  setupWatchdog ;;
  loraInit ;;
  loraJoin.

Definition loop : M unit :=
  delay 100 ;;
  heat 5 ;;
  args <- eval_args2 getGasValue getTempValue ;;
  loraSendValues (fst args) (snd args) 1 ;;
  goToSleep 120.

(** Modelled from the spec: the entry point of the Arduino core, which is
    not part of the sketch: [setup()] runs once at process start, then
    [loop()] is called again and again, forever.  [sketch n] is the run up
    to the end of the [n]-th cycle. *)
Fixpoint sketch (n : nat) : M unit :=
  match n with
  | O => setup
  | S n' => sketch n' ;; loop
  end.

End Sketch.

(** ** Observations on runs *)

(** The events a program adds to the trace when started in [s]. *)
Definition events_of {A : Type} (m : M A) (s : State) : list event :=
  skipn (List.length (trace s)) (trace (exec m s)).

(** [n] consecutive passes through the body of the sleep loop. *)
Fixpoint passes (n : nat) (s : State) : State :=
  match n with
  | O => s
  | S n' => passes n' (exec sleep_iteration s)
  end.

Definition count (p : event -> bool) (tr : list event) : nat :=
  List.length (filter p tr).

Definition is_halt (e : event) : bool :=
  match e with EvHalt => true | _ => false end.

Definition is_send (e : event) : bool :=
  match e with EvSendBytes _ _ _ _ => true | _ => false end.

Definition is_join (e : event) : bool :=
  match e with EvPersonalize _ _ _ => true | _ => false end.

Definition is_sample (e : event) : bool :=
  match e with EvAnalogRead _ _ => true | _ => false end.

Definition is_sample_of (pin : Z) (e : event) : bool :=
  match e with EvAnalogRead p _ => p =? pin | _ => false end.

(** Position of the first event that satisfies [p]. *)
Fixpoint first_index (p : event -> bool) (tr : list event) : option nat :=
  match tr with
  | [] => None
  | e :: tr' =>
      if p e then Some O
      else match first_index p tr' with
           | Some i => Some (S i)
           | None => None
           end
  end.

(** The payloads handed to the radio, in order. *)
Fixpoint payloads (tr : list event) : list (list Z) :=
  match tr with
  | [] => []
  | EvSendBytes data _ _ _ :: tr' => data :: payloads tr'
  | _ :: tr' => payloads tr'
  end.

(** Environments that differ in one respect only. *)
Definition with_status (f : nat -> list Z -> Z -> Z -> Z) (env : Env) : Env :=
  mkEnv (analog_in env) f (status_query_times_out env) (arg_order env).
Definition with_timeout (b : bool) (env : Env) : Env :=
  mkEnv (analog_in env) (uplink_status env) b (arg_order env).
Definition with_order (o : eval_order) (env : Env) : Env :=
  mkEnv (analog_in env) (uplink_status env) (status_query_times_out env) o.

(** ** Event lists of the phases of a cycle *)

Definition iteration_events : list event :=
  [ EvPrint "* "; EvDelay 100; EvSetSleepMode SLEEP_MODE_PWR_DOWN;
    EvSleepEnable; EvSleepEnable; EvHalt; EvSleepDisable; EvSleepDisable;
    EvPowerAllEnable; EvDelay 100 ].

Fixpoint passes_events (n : nat) : list event :=
  match n with
  | O => []
  | S n' => iteration_events ++ passes_events n'
  end.

Definition goToSleep_events (sec : Z) : list event :=
  [ EvPrint "Sleep ("; EvPrintDec (Int16.mul 8 (Int16.shr sec 3)); EvPrint "s) " ]
  ++ passes_events (Z.to_nat (Int16.shr sec 3))
  ++ [ EvPrintln "Wake up !" ].

Definition heat_events (sec : Z) : list event :=
  [ EvDigitalWrite HEAT_PIN HIGH; EvDelay (to_ulong (Int16.mul 1000 sec));
    EvDigitalWrite HEAT_PIN LOW ].

Definition gas_events (val : Z) : list event :=
  [ EvAnalogReference INTERNAL; EvAnalogRead gas_sensor_pin val;
    EvPrint "Gas value = "; EvPrintDec val; EvPrintln "/1023" ].

Definition temp_events (val : Z) : list event :=
  [ EvAnalogReference DEFAULT; EvAnalogRead temp_sensor_pin val;
    EvPrint "Temperature value = "; EvPrintDec val; EvPrintln "/1023" ].

(** The gas and temperature codes of the cycle that starts after [k]
    conversions. *)
Definition cycle_gas (env : Env) (k : nat) : Z :=
  match arg_order env with
  | LeftToRight => analog_in env k INTERNAL gas_sensor_pin
  | RightToLeft => analog_in env (S k) INTERNAL gas_sensor_pin
  end.
Definition cycle_temp (env : Env) (k : nat) : Z :=
  match arg_order env with
  | LeftToRight => analog_in env (S k) DEFAULT temp_sensor_pin
  | RightToLeft => analog_in env k DEFAULT temp_sensor_pin
  end.

Definition sampling_events (env : Env) (k : nat) : list event :=
  match arg_order env with
  | LeftToRight => gas_events (cycle_gas env k) ++ temp_events (cycle_temp env k)
  | RightToLeft => temp_events (cycle_temp env k) ++ gas_events (cycle_gas env k)
  end.

Definition cycle_payload (env : Env) (k : nat) : list Z :=
  pack_values (cycle_gas env k) (cycle_temp env k).

Definition cycle_status (env : Env) (k u : nat) : Z :=
  uplink_status env u (cycle_payload env k) 4 1.

(** Events of the cycle that starts after [k] conversions and [u]
    transmissions. *)
Definition cycle_events (env : Env) (k u : nat) : list event :=
  [ EvDelay 100 ] ++ heat_events 5 ++ sampling_events env k
  ++ [ EvSendBytes (cycle_payload env k) 4 1 (cycle_status env k u) ]
  ++ goToSleep_events 120.

Definition timeout_events : list event :=
  [ EvPrintln ("Timeout !" ++ newline); EvTimer2Stop ].

(** Events of [setup] up to and including the status query of the radio. *)
Definition bringup_events (s : State) : list event :=
  [ EvDebugBegin 9600; EvPinMode HEAT_PIN OUTPUT; EvTimer2Set 15000; EvCli;
    EvWriteMCUSR (reg8 (Z.land (MCUSR s) (Z.lnot (Z.shiftl 1 WDRF))));
    EvWriteWDTCSR
      (reg8 (Z.lor (WDTCSR s) (Z.lor (Z.shiftl 1 WDCE) (Z.shiftl 1 WDE))));
    EvWriteWDTCSR 33; EvWriteWDTCSR 97; EvSei;
    EvPinMode RST_PIN OUTPUT; EvDigitalWrite RST_PIN LOW; EvDelay 100;
    EvDigitalWrite RST_PIN HIGH; EvDelay 100; EvLoraSerialBegin 57600;
    EvTimer2Start; EvShowStatus ].

(** Events of [setup] after the status query. *)
Definition join_events : list event :=
  [ EvTimer2Stop; EvPersonalize devAddr nwkSKey appSKey ].

Definition setup_events (env : Env) (s : State) : list event :=
  bringup_events s
  ++ (if status_query_times_out env then timeout_events else [])
  ++ join_events.

Fixpoint cycles_events (env : Env) (n : nat) (k u : nat) : list event :=
  match n with
  | O => []
  | S n' => cycle_events env k u ++ cycles_events env n' (S (S k)) (S u)
  end.

(** The tick counter after [n] watchdog interrupts. *)
Fixpoint ticks (n : nat) (c : Z) : Z :=
  match n with
  | O => c
  | S n' => ticks n' (Int16.add c 1)
  end.

(** The statements of [goToSleep] before and after its [while]. *)
Definition goToSleep_prologue (sec : Z) : M unit :=
  modify (set_wdt_cpt 0) ;;
  debugSerial_print "Sleep (" ;;
  debugSerial_print_dec (Int16.mul 8 (Int16.shr sec 3)) ;;
  debugSerial_print "s) ".

Definition goToSleep_epilogue : M unit :=
  modify (set_wdt_cpt 0) ;;
  debugSerial_println "Wake up !".

(** ** Classification of events *)

Definition is_heater_pin_setup (e : event) : bool :=
  match e with
  | EvPinMode pin OUTPUT => pin =? HEAT_PIN
  | _ => false
  end.

(** A write that leaves the watchdog in interrupt mode: [WDIE] set and
    [WDE] clear. *)
Definition is_watchdog_arm (e : event) : bool :=
  match e with
  | EvWriteWDTCSR v => Z.testbit v WDIE && negb (Z.testbit v WDE)
  | _ => false
  end.

Definition is_radio_bringup (e : event) : bool :=
  match e with
  | EvLoraSerialBegin _ => true
  | _ => false
  end.

Definition is_status_query (e : event) : bool :=
  match e with
  | EvShowStatus => true
  | _ => false
  end.

(** Events that only the start-up code produces. *)
Definition is_startup (e : event) : bool :=
  match e with
  | EvPinMode _ _ | EvDebugBegin _ | EvLoraSerialBegin _
  | EvTimer2Set _ | EvTimer2Start | EvTimer2Stop
  | EvShowStatus | EvPersonalize _ _ _
  | EvCli | EvSei | EvWriteMCUSR _ | EvWriteWDTCSR _ => true
  | EvDigitalWrite pin _ => pin =? RST_PIN
  | _ => false
  end.

(** The events that come before the first one satisfying [p]. *)
Fixpoint prefix_until (p : event -> bool) (tr : list event) : list event :=
  match tr with
  | [] => []
  | e :: tr' => if p e then [] else e :: prefix_until p tr'
  end.

Definition is_heat_on (e : event) : bool :=
  match e with
  | EvDigitalWrite pin HIGH => pin =? HEAT_PIN
  | _ => false
  end.

Definition is_heat_off (e : event) : bool :=
  match e with
  | EvDigitalWrite pin LOW => pin =? HEAT_PIN
  | _ => false
  end.

Definition before (i j : option nat) : bool :=
  match i, j with
  | Some a, Some b => (a <? b)%nat
  | _, _ => false
  end.

(** Heater on, heater off, both samples, transmission, first halt: the
    phases of a cycle follow one another, the two samples in either
    order. *)
Definition in_cycle_order (tr : list event) : bool :=
  let on := first_index is_heat_on tr in
  let off := first_index is_heat_off tr in
  let gas := first_index (is_sample_of gas_sensor_pin) tr in
  let temp := first_index (is_sample_of temp_sensor_pin) tr in
  let send := first_index is_send tr in
  let halt := first_index is_halt tr in
  before on off && before off gas && before off temp
  && before gas send && before temp send && before send halt.

(** The gas sensor is sampled before the temperature sensor. *)
Definition gas_then_temp (tr : list event) : bool :=
  before (first_index (is_sample_of gas_sensor_pin) tr)
         (first_index (is_sample_of temp_sensor_pin) tr).

(** Two states of the same machine: equal but for the trace. *)
Definition same_machine (s1 s2 : State) : Prop :=
  set_trace [] s1 = set_trace [] s2.

(** ** The interface as the specification words it *)



(** ** Sample environments and inputs *)

(** Gas reads 300 and temperature 900; every uplink succeeds. *)
Definition env_example : Env :=
  mkEnv (fun _ _ pin => if pin =? gas_sensor_pin then 300 else 900)
        (fun _ _ _ _ => 1) false LeftToRight.

(** The same node built by a compiler that evaluates the last argument of
    a call first. *)
Definition env_last_first : Env := with_order RightToLeft env_example.

(** The reference left selected at the end of a cycle. *)
Definition last_reference (env : Env) : analog_ref :=
  match arg_order env with
  | LeftToRight => DEFAULT
  | RightToLeft => INTERNAL
  end.

(** ** Monitors over traces *)

(** A monitor reads a trace event by event; [None] reports a violation,
    [Some st] the monitor state at the end. *)
Fixpoint run_monitor {St : Type} (step : St -> event -> option St)
    (st : St) (tr : list event) : option St :=
  match tr with
  | [] => Some st
  | e :: tr' =>
      match step st e with
      | Some st' => run_monitor step st' tr'
      | None => None
      end
  end.

(** Heater monitor: the state tells whether the heater pin is high; a
    conversion, a transmission or a halt with the heater on is a
    violation. *)
Definition heater_step (on : bool) (e : event) : option bool :=
  match e with
  | EvDigitalWrite pin l =>
      if pin =? HEAT_PIN
      then Some (match l with HIGH => true | LOW => false end)
      else Some on
  | EvAnalogRead _ _ | EvSendBytes _ _ _ _ | EvHalt =>
      if on then None else Some on
  | _ => Some on
  end.

(** Output monitor: the state lists the pins made outputs so far; writing
    to a pin that is not among them is a violation. *)
Definition output_step (outs : list Z) (e : event) : option (list Z) :=
  match e with
  | EvPinMode pin OUTPUT => Some (pin :: outs)
  | EvPinMode pin INPUT => Some (filter (fun p => negb (p =? pin)) outs)
  | EvDigitalWrite pin _ =>
      if existsb (Z.eqb pin) outs then Some outs else None
  | _ => Some outs
  end.

Definition is_pin_input (e : event) : bool :=
  match e with
  | EvPinMode _ INPUT => true
  | _ => false
  end.

(** Level monitor: the level last written to [pin], if any. *)
Definition level_step (pin : Z) (lv : option level) (e : event)
    : option (option level) :=
  match e with
  | EvDigitalWrite p l => if p =? pin then Some (Some l) else Some lv
  | _ => Some lv
  end.

(** Milliseconds spent in [delay]. *)
Fixpoint total_delay (tr : list event) : Z :=
  match tr with
  | [] => 0
  | EvDelay ms :: tr' => ms + total_delay tr'
  | _ :: tr' => total_delay tr'
  end.

(** The calls made to [ttn.sendBytes]: buffer, length and port. *)
Fixpoint uplink_calls (tr : list event) : list (list Z * Z * Z) :=
  match tr with
  | [] => []
  | EvSendBytes data len port _ :: tr' => (data, len, port) :: uplink_calls tr'
  | _ :: tr' => uplink_calls tr'
  end.

(** [n] watchdog interrupts in a row. *)
Fixpoint interrupts (n : nat) (s : State) : State :=
  match n with
  | O => s
  | S n' => interrupts n' (exec WDT_vect s)
  end.

(** ** Proof automation: symbolic execution of straight-line code *)

Ltac unfold_sketch :=
  cbv beta iota zeta delta
    [ exec result events_of bind ret modify emit get fst snd
      set_wdt_cpt set_f_wdt set_MCUSR set_WDTCSR set_irq set_aref
      set_timer2_ms set_timer2_on set_adc_reads set_uplinks set_trace
      wdt_cpt f_wdt MCUSR WDTCSR irq_enabled aref timer2_ms timer2_on
      adc_reads uplinks trace
      pinMode digitalWrite delay analogReference analogRead
      debugSerial_begin debugSerial_print debugSerial_print_dec
      debugSerial_println loraSerial_begin MsTimer2_set MsTimer2_start
      MsTimer2_stop cli sei write_MCUSR write_WDTCSR set_sleep_mode
      sleep_enable sleep_disable power_all_enable timeoutHandler
      MsTimer2_overflow WDT_vect sleep_cpu sleep_mode ttn_showStatus
      ttn_personalize ttn_sendBytes resetRN2483 loraInit loraJoin
      loraSendBytes loraSendByte loraSendValues setupWatchdog sleep_8s
      sleep_iteration goToSleep getGasValue getTempValue heat setup loop ].

Ltac norm_trace :=
  repeat rewrite <- app_assoc; cbn [app].

(** ** Facts on 16-bit arithmetic used by the sketch *)

Lemma norm_range (z : Z) : Int16.in_range (Int16.norm z).
Proof.
  unfold Int16.in_range, Int16.norm, Int16.modulus, Int16.min_signed,
    Int16.max_signed.
  pose proof (Z.mod_pos_bound (z + 32768) 65536 eq_refl). lia.
Qed.

Lemma norm_id (z : Z) : Int16.in_range z -> Int16.norm z = z.
Proof.
  unfold Int16.in_range, Int16.norm, Int16.modulus, Int16.min_signed,
    Int16.max_signed.
  intros H. rewrite Z.mod_small by lia. lia.
Qed.

Lemma norm_idem (z : Z) : Int16.norm (Int16.norm z) = Int16.norm z.
Proof. apply norm_id, norm_range. Qed.

(** Incrementing a counter that is below some [int] does not wrap. *)
Lemma norm_succ (c k : Z) :
  Int16.norm c < Int16.norm k -> Int16.norm (c + 1) = Int16.norm c + 1.
Proof.
  intros H.
  pose proof (norm_range c) as Hc. pose proof (norm_range k) as Hk.
  unfold Int16.in_range, Int16.min_signed, Int16.max_signed in *.
  rewrite <- (norm_id (Int16.norm c + 1)) by
    (unfold Int16.in_range, Int16.min_signed, Int16.max_signed; lia).
  unfold Int16.norm, Int16.modulus.
  f_equal.
  replace (c + 1 + 32768) with ((c + 32768) + 1) by lia.
  replace ((c + 32768) mod 65536 - 32768 + 1 + 32768)
    with ((c + 32768) mod 65536 + 1) by lia.
  rewrite Z.add_mod_idemp_l by lia. reflexivity.
Qed.

Lemma shr3_bounds (z : Z) : -4096 <= Int16.shr z 3 <= 4095.
Proof.
  unfold Int16.shr. rewrite Z.shiftr_div_pow2 by lia.
  pose proof (norm_range z) as H.
  unfold Int16.in_range, Int16.min_signed, Int16.max_signed in H.
  change (2 ^ 3) with 8.
  split.
  - apply Z.div_le_lower_bound; lia.
  - apply Z.lt_succ_r. apply Z.div_lt_upper_bound; lia.
Qed.

Lemma shr3_in_range (z : Z) : Int16.in_range (Int16.shr z 3).
Proof.
  pose proof (shr3_bounds z).
  unfold Int16.in_range, Int16.min_signed, Int16.max_signed. lia.
Qed.

Lemma shr3_div8 (d : Z) : Int16.in_range d -> Int16.shr d 3 = d / 8.
Proof.
  intros H. unfold Int16.shr. rewrite (norm_id _ H).
  rewrite Z.shiftr_div_pow2 by lia. reflexivity.
Qed.

Lemma mul8_shr3 (z : Z) : Int16.mul 8 (Int16.shr z 3) = 8 * Int16.shr z 3.
Proof.
  unfold Int16.mul. apply norm_id.
  unfold Int16.shr. rewrite Z.shiftr_div_pow2 by lia. change (2 ^ 3) with 8.
  pose proof (norm_range z) as H.
  unfold Int16.in_range, Int16.min_signed, Int16.max_signed in *.
  pose proof (Z.mul_div_le (Int16.norm z) 8 eq_refl).
  pose proof (Z.mod_pos_bound (Int16.norm z) 8 eq_refl).
  pose proof (Z.div_mod (Int16.norm z) 8).
  assert (Hm : (Int16.norm z) mod 8 = (Int16.norm z + 32768) mod 8).
  { replace (Int16.norm z + 32768) with (Int16.norm z + 4096 * 8) by lia.
    rewrite Z.mod_add by lia. reflexivity. }
  pose proof (Z.mod_le (Int16.norm z + 32768) 8).
  lia.
Qed.

(** ** The sleep loop *)

Lemma exec_sleep_iteration (s : State) :
  exec sleep_iteration s =
  set_trace (trace s ++ iteration_events)
            (set_wdt_cpt (Int16.add (wdt_cpt s) 1) s).
Proof.
  destruct s. unfold iteration_events. unfold_sketch. norm_trace. reflexivity.
Qed.

(** The fuel of [sleep_while] is never exhausted: it satisfies the
    equation of the [while] statement. *)
Lemma sleep_while_unfold (sec : Z) (s : State) :
  sleep_while sec s =
  if Int16.lt (wdt_cpt s) sec
  then sleep_while sec (exec sleep_iteration s)
  else s.
Proof.
  unfold sleep_while.
  destruct (Int16.lt (wdt_cpt s) sec) eqn:Hlt.
  - assert (Hc : Int16.norm (wdt_cpt (exec sleep_iteration s))
                 = Int16.norm (wdt_cpt s) + 1).
    { rewrite exec_sleep_iteration.
      change (wdt_cpt (set_trace _ (set_wdt_cpt ?v _))) with v.
      unfold Int16.lt in Hlt. apply Z.ltb_lt in Hlt.
      unfold Int16.add.
      rewrite norm_idem. apply (norm_succ _ _ Hlt). }
    rewrite Hc.
    assert (Hlt' := Hlt). unfold Int16.lt in Hlt'. apply Z.ltb_lt in Hlt'.
    replace (Z.to_nat (Int16.norm sec - Int16.norm (wdt_cpt s)))
      with (S (Z.to_nat (Int16.norm sec - (Int16.norm (wdt_cpt s) + 1))))
      by lia.
    cbn [sleep_loop]. rewrite Hlt. reflexivity.
  - destruct (Z.to_nat _); cbn [sleep_loop]; [reflexivity|].
    rewrite Hlt. reflexivity.
Qed.

Lemma exec_bind {A B : Type} (m : M A) (k : A -> M B) (s : State) :
  exec (bind m k) s = exec (k (result m s)) (exec m s).
Proof. reflexivity. Qed.

Lemma skipn_length_app {A : Type} (l r : list A) :
  skipn (List.length l) (l ++ r) = r.
Proof. induction l as [|x l IH]; [reflexivity | exact IH]. Qed.

Lemma events_of_trace {A : Type} (m : M A) (s : State) (evs : list event) :
  trace (exec m s) = trace s ++ evs -> events_of m s = evs.
Proof. intros H. unfold events_of. rewrite H. apply skipn_length_app. Qed.

Lemma ticks_small (n : nat) (c : Z) :
  Int16.in_range c -> c + Z.of_nat n <= Int16.max_signed ->
  ticks n c = c + Z.of_nat n.
Proof.
  revert c. induction n as [|n IH]; intros c Hc Hn; cbn [ticks].
  - lia.
  - unfold Int16.in_range, Int16.max_signed, Int16.min_signed in *.
    assert (Ha : Int16.add c 1 = c + 1).
    { unfold Int16.add. apply norm_id.
      unfold Int16.in_range, Int16.max_signed, Int16.min_signed. lia. }
    rewrite Ha, IH; lia.
Qed.

Lemma passes_exec (n : nat) (s : State) :
  passes n s =
  set_trace (trace s ++ passes_events n) (set_wdt_cpt (ticks n (wdt_cpt s)) s).
Proof.
  revert s. induction n as [|n IH]; intros s.
  - destruct s. cbn. rewrite app_nil_r. reflexivity.
  - cbn [passes passes_events ticks]. rewrite IH, exec_sleep_iteration.
    destruct s. unfold set_trace, set_wdt_cpt. cbn.
    rewrite <- app_assoc. reflexivity.
Qed.

(** With the counter at [c] and the bound at [c + n], the [while] makes
    exactly [n] passes. *)
Lemma sleep_while_passes (n : nat) (sec : Z) (s : State) :
  Int16.in_range (wdt_cpt s) ->
  wdt_cpt s + Z.of_nat n = Int16.norm sec ->
  sleep_while sec s = passes n s.
Proof.
  revert s. induction n as [|n IH]; intros s Hc Hn;
    rewrite sleep_while_unfold; unfold Int16.lt;
    rewrite (norm_id _ Hc).
  - replace (wdt_cpt s <? Int16.norm sec) with false
      by (symmetry; apply Z.ltb_ge; lia).
    reflexivity.
  - replace (wdt_cpt s <? Int16.norm sec) with true
      by (symmetry; apply Z.ltb_lt; lia).
    cbn [passes]. apply IH; rewrite exec_sleep_iteration;
      change (wdt_cpt (set_trace _ (set_wdt_cpt ?v _))) with v.
    + apply norm_range.
    + pose proof (norm_range sec) as Hs.
      unfold Int16.in_range, Int16.max_signed, Int16.min_signed in *.
      unfold Int16.add. rewrite norm_id; [lia|].
      unfold Int16.in_range, Int16.max_signed, Int16.min_signed. lia.
Qed.

Lemma goToSleep_split (sec : Z) (s : State) :
  exec (goToSleep sec) s =
  exec goToSleep_epilogue
       (sleep_while (Int16.shr sec 3) (exec (goToSleep_prologue sec) s)).
Proof. reflexivity. Qed.

Lemma exec_goToSleep_prologue (sec : Z) (s : State) :
  exec (goToSleep_prologue sec) s =
  set_trace (trace s ++ [ EvPrint "Sleep (";
                          EvPrintDec (Int16.mul 8 (Int16.shr sec 3));
                          EvPrint "s) " ])
            (set_wdt_cpt 0 s).
Proof.
  destruct s. unfold goToSleep_prologue. unfold_sketch. norm_trace.
  reflexivity.
Qed.

Lemma exec_goToSleep_epilogue (s : State) :
  exec goToSleep_epilogue s =
  set_trace (trace s ++ [ EvPrintln "Wake up !" ]) (set_wdt_cpt 0 s).
Proof.
  destruct s. unfold goToSleep_epilogue. unfold_sketch. reflexivity.
Qed.

(** The number of passes of the loop of [goToSleep sec]. *)
Lemma goToSleep_loop (sec : Z) (s : State) :
  sleep_while (Int16.shr sec 3) (exec (goToSleep_prologue sec) s) =
  passes (Z.to_nat (Int16.shr sec 3)) (exec (goToSleep_prologue sec) s).
Proof.
  pose proof (shr3_bounds sec) as Hb.
  pose proof (shr3_in_range sec) as Hr.
  assert (H0 : wdt_cpt (exec (goToSleep_prologue sec) s) = 0)
    by (rewrite exec_goToSleep_prologue; reflexivity).
  destruct (Z_le_gt_dec (Int16.shr sec 3) 0) as [Hle|Hgt].
  - replace (Z.to_nat (Int16.shr sec 3)) with O by lia.
    rewrite sleep_while_unfold. unfold Int16.lt.
    rewrite H0, (norm_id _ Hr).
    replace (Int16.norm 0 <? Int16.shr sec 3) with false
      by (symmetry; apply Z.ltb_ge; exact Hle).
    reflexivity.
  - apply sleep_while_passes; rewrite H0.
    + unfold Int16.in_range, Int16.min_signed, Int16.max_signed. lia.
    + rewrite (norm_id _ Hr). lia.
Qed.

Lemma goToSleep_exec (sec : Z) (s : State) :
  exec (goToSleep sec) s =
  set_trace (trace s ++ goToSleep_events sec) (set_wdt_cpt 0 s).
Proof.
  rewrite goToSleep_split, goToSleep_loop, passes_exec,
    exec_goToSleep_epilogue, exec_goToSleep_prologue.
  destruct s. unfold goToSleep_events, set_trace, set_wdt_cpt. cbn.
  norm_trace. reflexivity.
Qed.

(** ** Closed forms of [loop], [setup] and the whole run *)

Lemma loop_exec (env : Env) (s : State) :
  exec (loop env) s =
  set_trace (trace s ++ cycle_events env (adc_reads s) (uplinks s))
    (set_uplinks (S (uplinks s))
       (set_adc_reads (S (S (adc_reads s)))
          (set_aref (last_reference env) (set_wdt_cpt 0 s)))).
Proof.
  unfold loop. rewrite !exec_bind, goToSleep_exec.
  unfold cycle_events, cycle_status, cycle_payload, sampling_events,
    cycle_gas, cycle_temp, last_reference, eval_args2, heat_events,
    gas_events, temp_events.
  destruct s; destruct (arg_order env); unfold_sketch; norm_trace;
    reflexivity.
Qed.

Lemma setup_exec (env : Env) (s : State) :
  exec (setup env) s =
  set_trace (trace s ++ setup_events env s)
    (set_timer2_on false
       (set_timer2_ms 15000
          (set_irq true
             (set_WDTCSR 97
                (set_MCUSR (reg8 (Z.land (MCUSR s) (Z.lnot (Z.shiftl 1 WDRF))))
                   (set_f_wdt 0 s)))))).
Proof.
  unfold setup_events, bringup_events, join_events, timeout_events.
  destruct s; unfold_sketch; destruct (status_query_times_out env);
    unfold_sketch; norm_trace; reflexivity.
Qed.

Lemma cycles_events_snoc (env : Env) (n k u : nat) :
  cycles_events env (S n) k u =
  cycles_events env n k u ++ cycle_events env (k + 2 * n) (u + n).
Proof.
  revert k u. induction n as [|n IH]; intros k u.
  - cbn [cycles_events]. rewrite app_nil_r, Nat.mul_0_r, !Nat.add_0_r.
    reflexivity.
  - change (cycles_events env (S (S n)) k u)
      with (cycle_events env k u ++ cycles_events env (S n) (S (S k)) (S u)).
    rewrite IH. cbn [cycles_events]. rewrite <- app_assoc.
    replace (S (S k) + 2 * n)%nat with (k + 2 * S n)%nat by lia.
    replace (S u + n)%nat with (u + S n)%nat by lia.
    reflexivity.
Qed.

Lemma sketch_run (env : Env) (n : nat) (s : State) :
  trace (exec (sketch env n) s) =
    trace s ++ setup_events env s
            ++ cycles_events env n (adc_reads s) (uplinks s)
  /\ adc_reads (exec (sketch env n) s) = (adc_reads s + 2 * n)%nat
  /\ uplinks (exec (sketch env n) s) = (uplinks s + n)%nat.
Proof.
  induction n as [|n (Ht & Ha & Hu)].
  - cbn [sketch]. rewrite setup_exec. destruct s. cbn.
    rewrite app_nil_r. repeat split; lia.
  - change (exec (sketch env (S n)) s)
      with (exec (loop env) (exec (sketch env n) s)).
    rewrite loop_exec, cycles_events_snoc.
    set (x := exec (sketch env n) s) in *.
    split; [|split].
    + change (trace x ++ cycle_events env (adc_reads x) (uplinks x) = 
              trace s ++ setup_events env s
              ++ cycles_events env n (adc_reads s) (uplinks s)
              ++ cycle_events env (adc_reads s + 2 * n) (uplinks s + n)).
      rewrite Ht, Ha, Hu, <- !app_assoc. reflexivity.
    + change (S (S (adc_reads x)) = (adc_reads s + 2 * S n)%nat). lia.
    + change (S (uplinks x) = (uplinks s + S n)%nat). lia.
Qed.

Lemma sketch_events (env : Env) (n : nat) (s : State) :
  events_of (sketch env n) s =
  setup_events env s ++ cycles_events env n (adc_reads s) (uplinks s).
Proof. apply events_of_trace, sketch_run. Qed.

Lemma loop_events (env : Env) (s : State) :
  events_of (loop env) s = cycle_events env (adc_reads s) (uplinks s).
Proof. apply events_of_trace. rewrite loop_exec. destruct s. reflexivity. Qed.

(** ** The payload *)

Lemma hi_byte (v : Z) : to_byte (Int16.shr v 8) = (v mod 65536) / 256.
Proof.
  unfold to_byte, Int16.shr, Int16.norm, Int16.modulus.
  rewrite Z.shiftr_div_pow2 by lia. change (2 ^ 8) with 256.
  Z.to_euclidean_division_equations. lia.
Qed.

Lemma lo_byte (v : Z) : to_byte (Int16.and v 255) = v mod 256.
Proof.
  unfold to_byte, Int16.and.
  change (Int16.norm 255) with (Z.ones 8).
  rewrite Z.land_ones by lia. change (2 ^ 8) with 256.
  unfold Int16.norm, Int16.modulus.
  Z.to_euclidean_division_equations. lia.
Qed.

Lemma pack_values_bytes (gas temp : Z) :
  pack_values gas temp =
  [ (gas mod 65536) / 256; gas mod 256; (temp mod 65536) / 256; temp mod 256 ].
Proof. unfold pack_values. rewrite !hi_byte, !lo_byte. reflexivity. Qed.


Lemma loraSendValues_run (env : Env) (gas temp port : Z) (s : State) :
  loraSendValues env gas temp port s =
  ( uplink_status env (uplinks s) (pack_values gas temp) 4 (to_port port),
    set_trace
      (trace s ++ [ EvSendBytes (pack_values gas temp) 4 (to_port port)
                      (uplink_status env (uplinks s)
                         (pack_values gas temp) 4 (to_port port)) ])
      (set_uplinks (S (uplinks s)) s) ).
Proof. destruct s. reflexivity. Qed.

Lemma loraSendValues_events (env : Env) (gas temp port : Z) (s : State) :
  events_of (loraSendValues env gas temp port) s =
  [ EvSendBytes (pack_values gas temp) 4 (to_port port)
      (uplink_status env (uplinks s) (pack_values gas temp) 4
         (to_port port)) ].
Proof.
  apply events_of_trace. unfold exec. rewrite loraSendValues_run.
  destruct s. reflexivity.
Qed.

(** C1. For 10-bit readings [g] and [t] (0..1023), [loraSendValues g t port]
    hands the radio exactly one payload of exactly four bytes,
    [g>>8, g&0xFF, t>>8, t&0xFF], with length 4, on the port the library
    receives (the [int] port converted to its 8-bit [port_t]); for gas 300
    and temperature 900 the bytes are 0x01, 0x2C, 0x03, 0x84. *)
Theorem loraSendValues_payload
    (env : Env) (g t port : Z) (s : State) :
  0 <= g <= 1023 -> 0 <= t <= 1023 ->
  pack_values g t = [ Z.shiftr g 8; Z.land g 255; Z.shiftr t 8; Z.land t 255 ]
  /\ List.length (pack_values g t) = 4%nat
  /\ events_of (loraSendValues env g t port) s =
       [ EvSendBytes [ Z.shiftr g 8; Z.land g 255; Z.shiftr t 8; Z.land t 255 ]
           4 (to_port port) (result (loraSendValues env g t port) s) ]
  /\ pack_values 300 900 = [ 1; 44; 3; 132 ].
Proof.
  intros Hg Ht.
  assert (Hp : pack_values g t =
               [ Z.shiftr g 8; Z.land g 255; Z.shiftr t 8; Z.land t 255 ]).
  { rewrite pack_values_bytes.
    rewrite !Z.shiftr_div_pow2 by lia. change (2 ^ 8) with 256.
    change 255 with (Z.ones 8). rewrite !Z.land_ones by lia.
    change (2 ^ 8) with 256.
    rewrite (Z.mod_small g 65536), (Z.mod_small t 65536) by lia.
    reflexivity. }
  split; [exact Hp|]. split; [reflexivity|]. split; [|reflexivity].
  rewrite loraSendValues_events. unfold result.
  rewrite loraSendValues_run. cbn [fst]. rewrite Hp. reflexivity.
Qed.

Lemma loraSendValues_payload_witness :
  0 <= 300 <= 1023 /\ 0 <= 900 <= 1023 /\
  events_of (loraSendValues env_example 300 900 1) (power_on 0 0) =
    [ EvSendBytes [ 1; 44; 3; 132 ] 4 1 1 ].
Proof.
  split; [lia|]. split; [lia|].
  apply (loraSendValues_payload env_example 300 900 1 (power_on 0 0)); lia.
Defined.



(** C10. For all inputs, inside 0..1023 or not, the bytes that
    [loraSendValues] transmits are those of the low 16 bits of each input:
    byte by byte the value reduced modulo 2^16, high byte then low byte,
    each in 0..255.  Inputs that agree modulo 2^16 (and ports that agree
    modulo 2^8, the port being converted to the 8-bit [port_t] of the
    library) give the same call and the same result: there is one
    transmission, whose status is returned, and no other path. *)
Theorem loraSendValues_low_16_bits
    (env : Env) (gas temp port : Z) (s : State) :
  pack_values gas temp =
    [ ((gas mod 65536) / 256) mod 256; (gas mod 65536) mod 256;
      ((temp mod 65536) / 256) mod 256; (temp mod 65536) mod 256 ]
  /\ Forall (fun b => 0 <= b <= 255) (pack_values gas temp)
  /\ (forall i j k : Z,
        loraSendValues env (gas + 65536 * i) (temp + 65536 * j)
                       (port + 256 * k) s =
        loraSendValues env gas temp port s)
  /\ events_of (loraSendValues env gas temp port) s =
       [ EvSendBytes (pack_values gas temp) 4 (to_port port)
           (result (loraSendValues env gas temp port) s) ]
  /\ result (loraSendValues env gas temp port) s =
       uplink_status env (uplinks s) (pack_values gas temp) 4 (to_port port).
Proof.
  assert (Hb : forall v, ((v mod 65536) / 256) mod 256 = (v mod 65536) / 256)
    by (intros v; Z.to_euclidean_division_equations; lia).
  assert (Hl : forall v, (v mod 65536) mod 256 = v mod 256)
    by (intros v; Z.to_euclidean_division_equations; lia).
  split; [|split; [|split; [|split]]].
  - rewrite pack_values_bytes, !Hb, !Hl. reflexivity.
  - rewrite pack_values_bytes.
    repeat constructor; Z.to_euclidean_division_equations; lia.
  - intros i j k. rewrite !loraSendValues_run.
    assert (Hp : pack_values (gas + 65536 * i) (temp + 65536 * j)
                 = pack_values gas temp).
    { rewrite !pack_values_bytes.
      assert (H16 : forall v n, (v + 65536 * n) mod 65536 = v mod 65536)
        by (intros v n; Z.to_euclidean_division_equations; lia).
      assert (H8 : forall v n, (v + 65536 * n) mod 256 = v mod 256)
        by (intros v n; Z.to_euclidean_division_equations; lia).
      rewrite !H16, !H8. reflexivity. }
    assert (Hport : to_port (port + 256 * k) = to_port port)
      by (unfold to_port; Z.to_euclidean_division_equations; lia).
    rewrite Hp, Hport. reflexivity.
  - rewrite loraSendValues_events. unfold result.
    rewrite loraSendValues_run. reflexivity.
  - unfold result. rewrite loraSendValues_run. reflexivity.
Qed.

(** ** Sleeping *)

Lemma count_app (p : event -> bool) (l r : list event) :
  count p (l ++ r) = (count p l + count p r)%nat.
Proof. unfold count. rewrite filter_app, length_app. reflexivity. Qed.

Lemma count_cons (p : event -> bool) (e : event) (l : list event) :
  count p (e :: l) = ((if p e then 1 else 0) + count p l)%nat.
Proof. unfold count. cbn [filter]. destruct (p e); reflexivity. Qed.

Lemma halts_passes_events (n : nat) : count is_halt (passes_events n) = n.
Proof.
  induction n as [|n IH]; [reflexivity|].
  cbn [passes_events]. rewrite count_app, IH. reflexivity.
Qed.

Lemma halts_goToSleep_events (sec : Z) :
  count is_halt (goToSleep_events sec) = Z.to_nat (Int16.shr sec 3).
Proof.
  unfold goToSleep_events. rewrite !count_app, halts_passes_events.
  cbn. lia.
Qed.

Lemma goToSleep_events_of (sec : Z) (s : State) :
  events_of (goToSleep sec) s = goToSleep_events sec.
Proof.
  apply events_of_trace. rewrite goToSleep_exec. destruct s. reflexivity.
Qed.

Lemma wdt_cpt_passes (n : nat) (s : State) :
  wdt_cpt (passes n s) = ticks n (wdt_cpt s).
Proof. rewrite passes_exec. reflexivity. Qed.

Lemma in_range_nonneg (d : Z) :
  0 <= d <= Int16.max_signed -> Int16.in_range d.
Proof.
  unfold Int16.in_range, Int16.max_signed, Int16.min_signed. lia.
Qed.

(** C2. For a duration [D] that is a non-negative multiple of 8 (and an
    [int]), [goToSleep D] sets the tick counter to zero before the halt
    loop, makes exactly [D/8] passes through the loop, each consuming one
    watchdog tick (the loop condition holds before each of them and fails
    after the last, with the counter at [D/8]), and leaves the counter at
    zero on exit; [goToSleep 120] makes 15 passes. *)
Theorem goToSleep_multiple_of_tick (D : Z) (s : State) :
  0 <= D <= Int16.max_signed -> D mod 8 = 0 ->
  wdt_cpt (exec (goToSleep_prologue D) s) = 0
  /\ exec (goToSleep D) s =
       exec goToSleep_epilogue
            (passes (Z.to_nat (D / 8)) (exec (goToSleep_prologue D) s))
  /\ (forall m : nat,
        (m < Z.to_nat (D / 8))%nat ->
        Int16.lt (wdt_cpt (passes m (exec (goToSleep_prologue D) s)))
                 (Int16.shr D 3) = true)
  /\ Int16.lt
       (wdt_cpt (passes (Z.to_nat (D / 8)) (exec (goToSleep_prologue D) s)))
       (Int16.shr D 3) = false
  /\ wdt_cpt (passes (Z.to_nat (D / 8)) (exec (goToSleep_prologue D) s))
       = D / 8
  /\ count is_halt (events_of (goToSleep D) s) = Z.to_nat (D / 8)
  /\ wdt_cpt (exec (goToSleep D) s) = 0
  /\ count is_halt (events_of (goToSleep 120) s) = 15%nat.
Proof.
  intros HD Hmul.
  pose proof (in_range_nonneg D HD) as Hr.
  pose proof (shr3_div8 D Hr) as Hshr.
  pose proof (shr3_bounds D) as Hb. rewrite Hshr in Hb.
  assert (H0 : wdt_cpt (exec (goToSleep_prologue D) s) = 0)
    by (rewrite exec_goToSleep_prologue; reflexivity).
  assert (Hq : 0 <= D / 8) by (apply Z.div_pos; lia).
  assert (Hticks : forall m : nat,
            (m <= Z.to_nat (D / 8))%nat ->
            wdt_cpt (passes m (exec (goToSleep_prologue D) s)) = Z.of_nat m).
  { intros m Hm. rewrite wdt_cpt_passes, H0.
    rewrite ticks_small; unfold Int16.in_range, Int16.max_signed,
      Int16.min_signed; lia. }
  assert (Hn : Int16.norm (D / 8) = D / 8).
  { apply norm_id. unfold Int16.in_range, Int16.max_signed,
      Int16.min_signed. lia. }
  split; [exact H0|]. split.
  { rewrite goToSleep_split, goToSleep_loop, Hshr. reflexivity. }
  split.
  { intros m Hm. rewrite Hticks by lia. rewrite Hshr. unfold Int16.lt.
    rewrite Hn, norm_id.
    - apply Z.ltb_lt. lia.
    - unfold Int16.in_range, Int16.max_signed, Int16.min_signed. lia. }
  split.
  { rewrite Hticks by lia. rewrite Hshr. unfold Int16.lt.
    rewrite Hn, norm_id.
    - apply Z.ltb_ge. lia.
    - unfold Int16.in_range, Int16.max_signed, Int16.min_signed. lia. }
  split; [rewrite Hticks by lia; lia|].
  split.
  { rewrite goToSleep_events_of, halts_goToSleep_events, Hshr. reflexivity. }
  split.
  { rewrite goToSleep_exec. reflexivity. }
  rewrite goToSleep_events_of, halts_goToSleep_events. reflexivity.
Qed.

Lemma goToSleep_multiple_of_tick_witness :
  0 <= 120 <= Int16.max_signed /\ 120 mod 8 = 0 /\
  count is_halt (events_of (goToSleep 120) (power_on 0 0)) = 15%nat /\
  wdt_cpt (exec (goToSleep 120) (power_on 0 0)) = 0.
Proof.
  assert (H1 : 0 <= 120 <= Int16.max_signed)
    by (unfold Int16.max_signed; lia).
  assert (H2 : 120 mod 8 = 0) by reflexivity.
  split; [exact H1|]. split; [exact H2|].
  pose proof (goToSleep_multiple_of_tick 120 (power_on 0 0) H1 H2) as H.
  split; apply H.
Defined.

Lemma shr3_floor (D : Z) :
  Int16.in_range D -> Int16.shr (8 * (D / 8)) 3 = Int16.shr D 3.
Proof.
  intros Hr. rewrite (shr3_div8 D Hr).
  assert (Hr' : Int16.in_range (8 * (D / 8))).
  { unfold Int16.in_range, Int16.max_signed, Int16.min_signed in *.
    Z.to_euclidean_division_equations. lia. }
  rewrite (shr3_div8 _ Hr').
  Z.to_euclidean_division_equations. lia.
Qed.

(** C5. For a non-negative duration [D] (an [int]) that is not a multiple
    of 8, [goToSleep D] drops the remainder: it does exactly what
    [goToSleep (8 * floor(D/8))] does, waits [floor(D/8)] ticks, and the
    only output is the progress report of the truncated duration. *)
Theorem goToSleep_drops_remainder (D : Z) (s : State) :
  0 <= D <= Int16.max_signed -> D mod 8 <> 0 ->
  goToSleep D s = goToSleep (8 * (D / 8)) s
  /\ count is_halt (events_of (goToSleep D) s) = Z.to_nat (D / 8)
  /\ events_of (goToSleep D) s =
       [ EvPrint "Sleep ("; EvPrintDec (8 * (D / 8)); EvPrint "s) " ]
       ++ passes_events (Z.to_nat (D / 8))
       ++ [ EvPrintln "Wake up !" ].
Proof.
  intros HD Hrem.
  pose proof (in_range_nonneg D HD) as Hr.
  pose proof (shr3_div8 D Hr) as Hshr.
  split; [|split].
  - unfold goToSleep. cbv zeta. rewrite (shr3_floor D Hr). reflexivity.
  - rewrite goToSleep_events_of, halts_goToSleep_events, Hshr. reflexivity.
  - rewrite goToSleep_events_of. unfold goToSleep_events.
    rewrite mul8_shr3, Hshr. reflexivity.
Qed.

Lemma goToSleep_drops_remainder_witness :
  0 <= 125 <= Int16.max_signed /\ 125 mod 8 <> 0 /\
  goToSleep 125 (power_on 0 0) = goToSleep 120 (power_on 0 0).
Proof.
  assert (H1 : 0 <= 125 <= Int16.max_signed)
    by (unfold Int16.max_signed; lia).
  assert (H2 : 125 mod 8 <> 0) by (intros H; discriminate H).
  split; [exact H1|]. split; [exact H2|].
  apply (goToSleep_drops_remainder 125 (power_on 0 0) H1 H2).
Defined.

(** ** Sensors *)

Lemma getGasValue_run (env : Env) (s : State) :
  getGasValue env s =
  ( analog_in env (adc_reads s) INTERNAL gas_sensor_pin,
    set_trace
      (trace s ++ gas_events (analog_in env (adc_reads s) INTERNAL gas_sensor_pin))
      (set_adc_reads (S (adc_reads s)) (set_aref INTERNAL s)) ).
Proof.
  destruct s. unfold gas_events, getGasValue. unfold_sketch. norm_trace.
  reflexivity.
Qed.

Lemma getTempValue_run (env : Env) (s : State) :
  getTempValue env s =
  ( analog_in env (adc_reads s) DEFAULT temp_sensor_pin,
    set_trace
      (trace s ++ temp_events (analog_in env (adc_reads s) DEFAULT temp_sensor_pin))
      (set_adc_reads (S (adc_reads s)) (set_aref DEFAULT s)) ).
Proof.
  destruct s. unfold temp_events, getTempValue. unfold_sketch. norm_trace.
  reflexivity.
Qed.

(** C9. [getGasValue] selects the internal 1.1 V reference, the smallest
    full scale and so the finest step, and [getTempValue] the default 5 V
    reference, the widest, each before it samples; each takes exactly one
    conversion, on its own pin and under that reference, and returns the
    code of that conversion as it is. *)
Theorem sensor_reads_are_single_raw_samples (env : Env) (s : State) :
  events_of (getGasValue env) s =
    [ EvAnalogReference INTERNAL;
      EvAnalogRead gas_sensor_pin
        (analog_in env (adc_reads s) INTERNAL gas_sensor_pin);
      EvPrint "Gas value = ";
      EvPrintDec (analog_in env (adc_reads s) INTERNAL gas_sensor_pin);
      EvPrintln "/1023" ]
  /\ result (getGasValue env) s =
       analog_in env (adc_reads s) INTERNAL gas_sensor_pin
  /\ adc_reads (exec (getGasValue env) s) = S (adc_reads s)
  /\ count is_sample (events_of (getGasValue env) s) = 1%nat
  /\ events_of (getTempValue env) s =
       [ EvAnalogReference DEFAULT;
         EvAnalogRead temp_sensor_pin
           (analog_in env (adc_reads s) DEFAULT temp_sensor_pin);
         EvPrint "Temperature value = ";
         EvPrintDec (analog_in env (adc_reads s) DEFAULT temp_sensor_pin);
         EvPrintln "/1023" ]
  /\ result (getTempValue env) s =
       analog_in env (adc_reads s) DEFAULT temp_sensor_pin
  /\ adc_reads (exec (getTempValue env) s) = S (adc_reads s)
  /\ count is_sample (events_of (getTempValue env) s) = 1%nat
  /\ (forall r : analog_ref,
        match reference_millivolts r, reference_millivolts INTERNAL,
              reference_millivolts DEFAULT with
        | Some v, Some lo, Some hi => lo <= v <= hi
        | None, Some lo, Some hi => lo < hi
        | _, _, _ => False
        end).
Proof.
  unfold events_of, result, exec.
  rewrite getGasValue_run, getTempValue_run.
  destruct s. cbn [fst snd trace set_trace adc_reads set_adc_reads set_aref].
  rewrite !skipn_length_app.
  repeat split; try reflexivity.
  intros r. destruct r; cbn; lia.
Qed.

(** ** The software timeout *)

Lemma loraInit_exec (env : Env) (s : State) :
  exec (loraInit env) s =
  set_trace
    (trace s
     ++ [ EvPinMode RST_PIN OUTPUT; EvDigitalWrite RST_PIN LOW; EvDelay 100;
          EvDigitalWrite RST_PIN HIGH; EvDelay 100; EvLoraSerialBegin 57600;
          EvTimer2Start; EvShowStatus ]
     ++ (if status_query_times_out env then timeout_events else [])
     ++ [ EvTimer2Stop ])
    (set_timer2_on false s).
Proof.
  unfold timeout_events.
  destruct s; unfold_sketch; destruct (status_query_times_out env);
    unfold_sketch; norm_trace; reflexivity.
Qed.

Lemma same_machine_refl (s : State) : same_machine s s.
Proof. reflexivity. Qed.

Lemma same_machine_counters (s1 s2 : State) :
  same_machine s1 s2 ->
  adc_reads s1 = adc_reads s2 /\ uplinks s1 = uplinks s2.
Proof.
  unfold same_machine. destruct s1, s2. cbn. intros H.
  injection H as -> -> -> -> -> -> -> -> -> ->. split; reflexivity.
Qed.

Lemma loop_same_machine (env env' : Env) (s1 s2 : State) :
  arg_order env = arg_order env' ->
  same_machine s1 s2 ->
  same_machine (exec (loop env) s1) (exec (loop env') s2).
Proof.
  unfold same_machine. intros Ho H. rewrite !loop_exec.
  unfold last_reference. rewrite Ho.
  destruct s1, s2. cbn in *.
  injection H as -> -> -> -> -> -> -> -> -> ->. reflexivity.
Qed.

Lemma setup_same_machine (env env' : Env) (s : State) :
  same_machine (exec (setup env) s) (exec (setup env') s).
Proof.
  unfold same_machine. rewrite !setup_exec. destruct s. reflexivity.
Qed.

Lemma sketch_same_machine (env env' : Env) (n : nat) (s : State) :
  arg_order env = arg_order env' ->
  same_machine (exec (sketch env n) s) (exec (sketch env' n) s).
Proof.
  intros Ho. induction n as [|n IH].
  - apply setup_same_machine.
  - change (same_machine (exec (loop env) (exec (sketch env n) s))
                         (exec (loop env') (exec (sketch env' n) s))).
    apply loop_same_machine; assumption.
Qed.

Lemma cycles_events_with_timeout (b : bool) (env : Env) (n k u : nat) :
  cycles_events (with_timeout b env) n k u = cycles_events env n k u.
Proof.
  revert k u. induction n as [|n IH]; intros k u; [reflexivity|].
  cbn [cycles_events]. rewrite IH. reflexivity.
Qed.

(** C8. When the software timer expires during the status query of the
    radio bring-up, [timeoutHandler] prints the timeout notice and stops
    the timer, and does nothing else: every other component of the machine
    is left as it was.  The run goes on as without the timeout: up to any
    number of cycles the two runs end in the same machine state, and their
    traces differ by the two events of the handler only. *)
Theorem timeout_is_logged_and_ignored (env : Env) (n : nat) (s : State) :
  exec timeoutHandler s =
    set_trace (trace s ++ [ EvPrintln ("Timeout !" ++ newline); EvTimer2Stop ])
              (set_timer2_on false s)
  /\ events_of (loraInit (with_timeout true env)) s =
       [ EvPinMode RST_PIN OUTPUT; EvDigitalWrite RST_PIN LOW; EvDelay 100;
         EvDigitalWrite RST_PIN HIGH; EvDelay 100; EvLoraSerialBegin 57600;
         EvTimer2Start; EvShowStatus;
         EvPrintln ("Timeout !" ++ newline); EvTimer2Stop;
         EvTimer2Stop ]
  /\ events_of (sketch (with_timeout true env) n) s =
       bringup_events s ++ timeout_events ++ join_events
       ++ cycles_events env n (adc_reads s) (uplinks s)
  /\ events_of (sketch (with_timeout false env) n) s =
       bringup_events s ++ join_events
       ++ cycles_events env n (adc_reads s) (uplinks s)
  /\ same_machine (exec (sketch (with_timeout true env) n) s)
                  (exec (sketch (with_timeout false env) n) s).
Proof.
  split; [|split; [|split; [|split]]].
  - destruct s. unfold_sketch. norm_trace. reflexivity.
  - apply events_of_trace. rewrite loraInit_exec. destruct s. reflexivity.
  - rewrite sketch_events, cycles_events_with_timeout.
    unfold setup_events. cbn [status_query_times_out with_timeout].
    rewrite <- !app_assoc. reflexivity.
  - rewrite sketch_events, cycles_events_with_timeout.
    unfold setup_events. cbn [status_query_times_out with_timeout app].
    rewrite <- !app_assoc. reflexivity.
  - apply sketch_same_machine. reflexivity.
Qed.

(** ** The duty cycle *)

Lemma payloads_app (l r : list event) :
  payloads (l ++ r) = payloads l ++ payloads r.
Proof.
  induction l as [|e l IH]; [reflexivity|].
  destruct e; cbn [payloads List.app]; rewrite IH; reflexivity.
Qed.

Lemma payloads_passes_events (n : nat) : payloads (passes_events n) = [].
Proof.
  induction n as [|n IH]; [reflexivity|].
  cbn [passes_events]. rewrite payloads_app, IH. reflexivity.
Qed.

Lemma payloads_cycle_events (env : Env) (k u : nat) :
  payloads (cycle_events env k u) = [ cycle_payload env k ].
Proof.
  unfold cycle_events, goToSleep_events, sampling_events.
  rewrite !payloads_app, payloads_passes_events.
  destruct (arg_order env); reflexivity.
Qed.

Lemma payloads_cycles_with_status
    (f : nat -> list Z -> Z -> Z -> Z) (env : Env) (n k u : nat) :
  payloads (cycles_events (with_status f env) n k u) =
  payloads (cycles_events env n k u).
Proof.
  revert k u. induction n as [|n IH]; intros k u; [reflexivity|].
  cbn [cycles_events]. rewrite !payloads_app, IH, !payloads_cycle_events.
  reflexivity.
Qed.

(** C3. Whatever status the transmission returns, the cycle goes on to
    [goToSleep 120] and sleeps its 15 ticks: the events of the cycle are
    the same but for the status recorded with the transmission, and the
    machine is left in the same state.  Over any number of cycles, the
    payloads handed to the radio and the final machine state do not depend
    on the statuses the transmissions return. *)
Theorem transmit_status_is_ignored
    (env : Env) (status : Z) (f : nat -> list Z -> Z -> Z -> Z)
    (n : nat) (s : State) :
  events_of (loop (with_status (fun _ _ _ _ => status) env)) s =
    [ EvDelay 100 ] ++ heat_events 5 ++ sampling_events env (adc_reads s)
    ++ [ EvSendBytes (cycle_payload env (adc_reads s)) 4 1 status ]
    ++ goToSleep_events 120
  /\ count is_halt (goToSleep_events 120) = 15%nat
  /\ same_machine (exec (loop (with_status (fun _ _ _ _ => status) env)) s)
                  (exec (loop env) s)
  /\ payloads (events_of (sketch (with_status f env) n) s) =
       payloads (events_of (sketch env n) s)
  /\ same_machine (exec (sketch (with_status f env) n) s)
                  (exec (sketch env n) s).
Proof.
  split; [|split; [|split; [|split]]].
  - rewrite loop_events. reflexivity.
  - rewrite halts_goToSleep_events. reflexivity.
  - apply loop_same_machine; reflexivity.
  - rewrite !sketch_events, !payloads_app, payloads_cycles_with_status.
    reflexivity.
  - apply sketch_same_machine. reflexivity.
Qed.

Lemma cycle_in_order (env : Env) (k u : nat) :
  in_cycle_order (cycle_events env k u) = true.
Proof.
  unfold cycle_events, sampling_events.
  destruct (arg_order env); reflexivity.
Qed.

(** C4 as stated fails: built with right-to-left argument evaluation, the
    cycle samples the temperature sensor (event 5) before the gas sensor
    (event 10). *)
Lemma loop_samples_temperature_first :
  gas_then_temp (events_of (loop env_last_first) (power_on 0 0)) = false
  /\ nth_error (events_of (loop env_last_first) (power_on 0 0)) 5
       = Some (EvAnalogRead temp_sensor_pin 900)
  /\ nth_error (events_of (loop env_last_first) (power_on 0 0)) 10
       = Some (EvAnalogRead gas_sensor_pin 300).
Proof. rewrite loop_events. repeat split. Qed.

(** C4, amended. Every cycle waits 100 ms, heats for 5 s (heater pin
    high, 5000 ms, heater pin low), samples the gas sensor and the
    temperature sensor once each, in the order in which the compiler
    evaluates the two arguments of the call (gas first under left-to-right
    evaluation), transmits the packed readings on port 1, then sleeps for
    120 s, that is 15 watchdog ticks.  After every cycle comes another
    one, and the constants are the same in every cycle, whatever the state
    and the environment. *)
Theorem duty_cycle_phases (env : Env) (n : nat) (s : State) :
  events_of (loop env) s =
    [ EvDelay 100;
      EvDigitalWrite HEAT_PIN HIGH; EvDelay 5000; EvDigitalWrite HEAT_PIN LOW ]
    ++ match arg_order env with
       | LeftToRight =>
           gas_events (analog_in env (adc_reads s) INTERNAL gas_sensor_pin)
           ++ temp_events
                (analog_in env (S (adc_reads s)) DEFAULT temp_sensor_pin)
       | RightToLeft =>
           temp_events (analog_in env (adc_reads s) DEFAULT temp_sensor_pin)
           ++ gas_events
                (analog_in env (S (adc_reads s)) INTERNAL gas_sensor_pin)
       end
    ++ [ EvSendBytes (cycle_payload env (adc_reads s)) 4 1
           (cycle_status env (adc_reads s) (uplinks s)) ]
    ++ goToSleep_events 120
  /\ cycle_payload env (adc_reads s) =
       pack_values (cycle_gas env (adc_reads s)) (cycle_temp env (adc_reads s))
  /\ count is_halt (goToSleep_events 120) = 15%nat
  /\ in_cycle_order (events_of (loop env) s) = true
  /\ gas_then_temp (events_of (loop (with_order LeftToRight env)) s) = true
  /\ exec (sketch env (S n)) s = exec (loop env) (exec (sketch env n) s)
  /\ events_of (sketch env (S n)) s =
       events_of (sketch env n) s
       ++ cycle_events env (adc_reads s + 2 * n) (uplinks s + n).
Proof.
  split; [|split; [|split; [|split; [|split; [|split]]]]].
  - rewrite loop_events.
    unfold cycle_events, sampling_events, cycle_gas, cycle_temp.
    destruct (arg_order env); reflexivity.
  - reflexivity.
  - rewrite halts_goToSleep_events. reflexivity.
  - rewrite loop_events. apply cycle_in_order.
  - rewrite loop_events. reflexivity.
  - reflexivity.
  - rewrite !sketch_events, cycles_events_snoc, <- app_assoc. reflexivity.
Qed.

(** ** Start-up *)

Lemma count_cycles_zero (p : event -> bool) (env : Env) (n k u : nat) :
  (forall k' u', count p (cycle_events env k' u') = O) ->
  count p (cycles_events env n k u) = O.
Proof.
  intros H. revert k u. induction n as [|n IH]; intros k u; [reflexivity|].
  cbn [cycles_events]. rewrite count_app, H, IH. reflexivity.
Qed.

Lemma count_passes_zero (p : event -> bool) (n : nat) :
  count p iteration_events = O -> count p (passes_events n) = O.
Proof.
  intros H. induction n as [|n IH]; [reflexivity|].
  cbn [passes_events]. rewrite count_app, H, IH. reflexivity.
Qed.

Lemma count_cycle_zero (p : event -> bool) (env : Env) (k u : nat) :
  (forall e, p e = true -> is_startup e = true) ->
  count p (cycle_events env k u) = O.
Proof.
  intros Hp.
  assert (Hno : forall e, is_startup e = false -> p e = false).
  { intros e He. destruct (p e) eqn:E; [|reflexivity].
    rewrite (Hp e E) in He. discriminate He. }
  unfold cycle_events, goToSleep_events, sampling_events.
  rewrite !count_app, count_passes_zero.
  - destruct (arg_order env);
      unfold heat_events, gas_events, temp_events;
      rewrite ?count_app, !count_cons, !Hno by reflexivity; reflexivity.
  - unfold iteration_events. rewrite !count_cons, !Hno by reflexivity.
    reflexivity.
Qed.

Lemma count_cycles_startup_zero (p : event -> bool) (env : Env) (n k u : nat) :
  (forall e, p e = true -> is_startup e = true) ->
  count p (cycles_events env n k u) = O.
Proof.
  intros Hp. apply count_cycles_zero. intros k' u'.
  apply count_cycle_zero, Hp.
Qed.

Lemma count_send_cycles (env : Env) (n k u : nat) :
  count is_send (cycles_events env n k u) = n.
Proof.
  revert k u. induction n as [|n IH]; intros k u; [reflexivity|].
  cbn [cycles_events]. rewrite count_app, IH.
  unfold cycle_events, goToSleep_events, sampling_events.
  rewrite !count_app, count_passes_zero by reflexivity.
  destruct (arg_order env); reflexivity.
Qed.

(** The write [WDTCSR |= (1<<WDCE) | (1<<WDE)] does not arm the interrupt
    mode: it sets [WDE]. *)
Lemma timed_sequence_write_not_arming (w : Z) :
  is_watchdog_arm
    (EvWriteWDTCSR
       (reg8 (Z.lor w (Z.lor (Z.shiftl 1 WDCE) (Z.shiftl 1 WDE))))) = false.
Proof.
  unfold is_watchdog_arm, reg8.
  assert (H : Z.testbit
                (Z.land (Z.lor w (Z.lor (Z.shiftl 1 WDCE) (Z.shiftl 1 WDE))) 255)
                WDE = true).
  { rewrite Z.land_spec, Z.lor_spec.
    change (Z.testbit (Z.lor (Z.shiftl 1 WDCE) (Z.shiftl 1 WDE)) WDE) with true.
    change (Z.testbit 255 WDE) with true.
    rewrite orb_true_r. reflexivity. }
  rewrite H. apply andb_false_r.
Qed.

Lemma setup_counts (env : Env) (s : State) :
  count is_radio_bringup (setup_events env s) = 1%nat
  /\ count is_status_query (setup_events env s) = 1%nat
  /\ count is_heater_pin_setup (setup_events env s) = 1%nat
  /\ count is_watchdog_arm (setup_events env s) = 1%nat
  /\ count is_join (setup_events env s) = 1%nat
  /\ count is_send (setup_events env s) = O.
Proof.
  unfold setup_events.
  assert (Hw : count is_watchdog_arm (bringup_events s) = 1%nat).
  { unfold bringup_events. rewrite !count_cons.
    rewrite timed_sequence_write_not_arming. reflexivity. }
  rewrite !count_app, Hw.
  destruct (status_query_times_out env); repeat split; reflexivity.
Qed.

Lemma prefix_until_join_setup (env : Env) (s : State) (rest : list event) :
  prefix_until is_join (setup_events env s ++ rest) =
  bringup_events s
  ++ (if status_query_times_out env then timeout_events else [])
  ++ [ EvTimer2Stop ].
Proof.
  unfold setup_events, bringup_events, join_events, timeout_events.
  destruct (status_query_times_out env); reflexivity.
Qed.

Lemma startup_only (p : event -> bool) :
  (forall e, p e = true -> is_startup e = true) ->
  forall env n k u, count p (cycles_events env n k u) = O.
Proof. intros Hp env n k u. apply count_cycles_startup_zero, Hp. Qed.

(** C6. In the run of the sketch up to any number of cycles, the radio is
    brought up, the heater pin is made an output, the watchdog is armed in
    interrupt mode and the network is joined exactly once each, all in
    [setup]; no transmission comes before the join, and the [n] cycles that
    follow contain one transmission each and none of the start-up steps. *)
Theorem startup_runs_once_before_the_cycles
    (env : Env) (n : nat) (s : State) :
  events_of (sketch env n) s =
    events_of (setup env) s
    ++ cycles_events env n (adc_reads s) (uplinks s)
  /\ count is_radio_bringup (events_of (sketch env n) s) = 1%nat
  /\ count is_status_query (events_of (sketch env n) s) = 1%nat
  /\ count is_heater_pin_setup (events_of (sketch env n) s) = 1%nat
  /\ count is_watchdog_arm (events_of (sketch env n) s) = 1%nat
  /\ count is_join (events_of (sketch env n) s) = 1%nat
  /\ count is_send (prefix_until is_join (events_of (sketch env n) s)) = O
  /\ count is_send (events_of (sketch env n) s) = n
  /\ count is_startup (events_of (loop env) s) = O
  /\ count is_startup (cycles_events env n (adc_reads s) (uplinks s)) = O.
Proof.
  pose proof (setup_counts env s) as (Hr & Hq & Hh & Hw & Hj & Hs).
  assert (Hsetup : events_of (setup env) s = setup_events env s).
  { apply events_of_trace. rewrite setup_exec. destruct s. reflexivity. }
  rewrite Hsetup, loop_events, sketch_events, !count_app.
  rewrite Hr, Hq, Hh, Hw, Hj, Hs, count_send_cycles.
  rewrite prefix_until_join_setup.
  rewrite !startup_only.
  - repeat split.
    + unfold bringup_events, timeout_events.
      destruct (status_query_times_out env); reflexivity.
    + apply count_cycle_zero. trivial.
  - trivial.
  - intros e; destruct e; cbn; trivial; discriminate.
  - intros e; destruct e; cbn; trivial; discriminate.
  - intros e; destruct e; cbn; trivial; discriminate.
  - intros e; destruct e; cbn; trivial; discriminate.
  - intros e; destruct e; cbn; trivial; discriminate.
Qed.

(** ** Further properties of the watchdog and sleep functions *)

Lemma clear_WDRF (m : Z) :
  reg8 (Z.land m (Z.lnot (Z.shiftl 1 WDRF))) = Z.land m 247.
Proof.
  unfold reg8. rewrite <- Z.land_assoc. reflexivity.
Qed.

(** X1. Whatever the registers hold before, [setupWatchdog] leaves
    [WDTCSR] at 0x61: interrupt enabled ([WDIE]), reset mode off ([WDE]
    and [WDCE] clear), prescaler [WDP3|WDP0] for 8 s.  It clears [WDRF] in
    [MCUSR] and keeps the other bits, makes its four register writes
    between [cli] and [sei], the [WDCE|WDE] write first, and ends with
    interrupts enabled; nothing else in the machine changes. *)
Theorem setupWatchdog_configures_interrupt_mode (s : State) :
  exec setupWatchdog s =
    set_trace
      (trace s
       ++ [ EvCli;
            EvWriteMCUSR (Z.land (MCUSR s) 247);
            EvWriteWDTCSR (reg8 (Z.lor (WDTCSR s) 24));
            EvWriteWDTCSR 33; EvWriteWDTCSR 97;
            EvSei ])
      (set_irq true (set_WDTCSR 97 (set_MCUSR (Z.land (MCUSR s) 247) s)))
  /\ WDTCSR (exec setupWatchdog s) = 97
  /\ Z.testbit (WDTCSR (exec setupWatchdog s)) WDIE = true
  /\ Z.testbit (WDTCSR (exec setupWatchdog s)) WDE = false
  /\ Z.testbit (WDTCSR (exec setupWatchdog s)) WDCE = false
  /\ Z.land (WDTCSR (exec setupWatchdog s)) 39
       = Z.lor (Z.shiftl 1 WDP3) (Z.shiftl 1 WDP0)
  /\ Z.testbit (MCUSR (exec setupWatchdog s)) WDRF = false
  /\ irq_enabled (exec setupWatchdog s) = true.
Proof.
  assert (H : exec setupWatchdog s =
    set_trace
      (trace s
       ++ [ EvCli;
            EvWriteMCUSR (Z.land (MCUSR s) 247);
            EvWriteWDTCSR (reg8 (Z.lor (WDTCSR s) 24));
            EvWriteWDTCSR 33; EvWriteWDTCSR 97;
            EvSei ])
      (set_irq true (set_WDTCSR 97 (set_MCUSR (Z.land (MCUSR s) 247) s)))).
  { rewrite <- (clear_WDRF (MCUSR s)).
    destruct s. unfold_sketch. norm_trace. reflexivity. }
  split; [exact H|]. rewrite H.
  repeat split.
  cbn [MCUSR set_trace set_irq set_WDTCSR set_MCUSR].
  rewrite Z.land_spec. change (Z.testbit 247 WDRF) with false.
  apply andb_false_r.
Qed.

Lemma goToSleep_halts (D : Z) (s : State) :
  count is_halt (events_of (goToSleep D) s) = Z.to_nat (Int16.shr D 3).
Proof. rewrite goToSleep_events_of. apply halts_goToSleep_events. Qed.

(** X2. A duration below one tick, negative ones included, makes
    [goToSleep] return without halting at all: it prints its report and
    "Wake up !" and leaves the counter at zero. *)
Theorem goToSleep_below_one_tick (D : Z) (s : State) :
  Int16.in_range D -> D < 8 ->
  events_of (goToSleep D) s =
    [ EvPrint "Sleep ("; EvPrintDec (8 * (D / 8)); EvPrint "s) ";
      EvPrintln "Wake up !" ]
  /\ count is_halt (events_of (goToSleep D) s) = O
  /\ wdt_cpt (exec (goToSleep D) s) = 0.
Proof.
  intros Hr HD.
  pose proof (shr3_div8 D Hr) as Hshr.
  assert (Hq : D / 8 <= 0)
    by (Z.to_euclidean_division_equations; lia).
  split; [|split].
  - rewrite goToSleep_events_of. unfold goToSleep_events.
    rewrite mul8_shr3, Hshr.
    replace (Z.to_nat (D / 8)) with O by lia. reflexivity.
  - rewrite goToSleep_halts, Hshr. lia.
  - rewrite goToSleep_exec. reflexivity.
Qed.

Lemma goToSleep_below_one_tick_witness :
  Int16.in_range 7 /\ 7 < 8 /\
  count is_halt (events_of (goToSleep 7) (power_on 0 0)) = O.
Proof.
  assert (H1 : Int16.in_range 7)
    by (unfold Int16.in_range, Int16.min_signed, Int16.max_signed; lia).
  assert (H2 : 7 < 8) by lia.
  split; [exact H1|]. split; [exact H2|].
  apply (goToSleep_below_one_tick 7 (power_on 0 0) H1 H2).
Defined.

(** X3. For every [int] duration [D], [goToSleep D] halts
    [max 0 (floor (D/8))] times and reports the period [8 * floor (D/8)],
    a multiple of 8 that is at most [D] and more than [D - 8]: the sleep
    is never longer than asked and falls short by less than one tick. *)
Theorem goToSleep_reported_period (D : Z) (s : State) :
  Int16.in_range D ->
  count is_halt (events_of (goToSleep D) s) = Z.to_nat (D / 8)
  /\ nth_error (events_of (goToSleep D) s) 1 = Some (EvPrintDec (8 * (D / 8)))
  /\ D - 8 < 8 * (D / 8) <= D
  /\ (8 * (D / 8)) mod 8 = 0
  /\ 8 * Z.of_nat (count is_halt (events_of (goToSleep D) s)) <= Z.max 0 D.
Proof.
  intros Hr.
  pose proof (shr3_div8 D Hr) as Hshr.
  assert (Hh : count is_halt (events_of (goToSleep D) s) = Z.to_nat (D / 8))
    by (rewrite goToSleep_halts, Hshr; reflexivity).
  split; [exact Hh|]. split; [|split; [|split]].
  - rewrite goToSleep_events_of. unfold goToSleep_events.
    rewrite mul8_shr3, Hshr. reflexivity.
  - Z.to_euclidean_division_equations. lia.
  - Z.to_euclidean_division_equations. lia.
  - rewrite Hh. Z.to_euclidean_division_equations. lia.
Qed.

Lemma goToSleep_reported_period_witness :
  Int16.in_range (-20) /\
  count is_halt (events_of (goToSleep (-20)) (power_on 0 0)) = O.
Proof.
  assert (H1 : Int16.in_range (-20))
    by (unfold Int16.in_range, Int16.min_signed, Int16.max_signed; lia).
  split; [exact H1|].
  apply (goToSleep_reported_period (-20) (power_on 0 0) H1).
Defined.

(** X4. [goToSleep] does not depend on the tick counter it finds: ticks
    counted while the node was awake are discarded on entry.  It changes
    the counter and the trace only. *)
Theorem goToSleep_discards_stale_ticks (D c : Z) (s : State) :
  exec (goToSleep D) (set_wdt_cpt c s) = exec (goToSleep D) s
  /\ events_of (goToSleep D) (set_wdt_cpt c s) = events_of (goToSleep D) s
  /\ same_machine (set_wdt_cpt (wdt_cpt s) (exec (goToSleep D) s)) s.
Proof.
  split; [|split].
  - rewrite !goToSleep_exec. destruct s. reflexivity.
  - rewrite !goToSleep_events_of. reflexivity.
  - unfold same_machine. rewrite goToSleep_exec. destruct s. reflexivity.
Qed.

(** X5. [n] watchdog interrupts advance the tick counter by [n] as long
    as it stays an [int] (no wrap-around up to 32767), and touch nothing
    else: in particular [f_wdt] is never set. *)
Theorem watchdog_interrupts_count (n : nat) (s : State) :
  Int16.in_range (wdt_cpt s) ->
  wdt_cpt s + Z.of_nat n <= Int16.max_signed ->
  interrupts n s = set_wdt_cpt (wdt_cpt s + Z.of_nat n) s.
Proof.
  revert s. induction n as [|n IH]; intros s Hr Hn.
  - destruct s. cbn. rewrite Z.add_0_r. reflexivity.
  - cbn [interrupts].
    assert (Hs : exec WDT_vect s = set_wdt_cpt (wdt_cpt s + 1) s).
    { destruct s. unfold_sketch. unfold Int16.add.
      rewrite norm_id; [reflexivity|].
      unfold Int16.in_range, Int16.max_signed, Int16.min_signed in *.
      cbn [wdt_cpt] in *. lia. }
    rewrite Hs, IH.
    + rewrite Nat2Z.inj_succ. destruct s. unfold set_wdt_cpt.
      cbn -[Z.of_nat Z.add]. f_equal. lia.
    + unfold Int16.in_range, Int16.max_signed, Int16.min_signed in *.
      destruct s. cbn -[Z.of_nat Z.add] in *. lia.
    + unfold Int16.max_signed in *. destruct s.
      cbn -[Z.of_nat Z.add] in *. lia.
Qed.

Lemma watchdog_interrupts_count_witness :
  Int16.in_range (wdt_cpt (power_on 0 0)) /\
  wdt_cpt (power_on 0 0) + Z.of_nat 15 <= Int16.max_signed /\
  interrupts 15 (power_on 0 0) = set_wdt_cpt 15 (power_on 0 0).
Proof.
  assert (H1 : Int16.in_range (wdt_cpt (power_on 0 0)))
    by (unfold Int16.in_range, Int16.min_signed, Int16.max_signed; cbn; lia).
  assert (H2 : wdt_cpt (power_on 0 0) + Z.of_nat 15 <= Int16.max_signed)
    by (unfold Int16.max_signed; cbn; lia).
  split; [exact H1|]. split; [exact H2|].
  apply (watchdog_interrupts_count 15 (power_on 0 0) H1 H2).
Defined.

(** ** Further properties of the heater and of the payload *)

Lemma heat_exec (sec : Z) (s : State) :
  exec (heat sec) s = set_trace (trace s ++ heat_events sec) s.
Proof.
  destruct s. unfold heat_events. unfold_sketch. norm_trace. reflexivity.
Qed.

Lemma heat_events_of (sec : Z) (s : State) :
  events_of (heat sec) s = heat_events sec.
Proof. apply events_of_trace. rewrite heat_exec. destruct s. reflexivity. Qed.

(** X6. For 0 to 32 seconds, [heat sec] drives the heater pin high, waits
    exactly [1000 * sec] ms and drives it low again; the product fits the
    16-bit [int] in which it is computed.  Nothing else in the machine
    changes. *)
Theorem heat_holds_for_the_requested_time (sec : Z) (s : State) :
  0 <= sec <= 32 ->
  events_of (heat sec) s =
    [ EvDigitalWrite HEAT_PIN HIGH; EvDelay (1000 * sec);
      EvDigitalWrite HEAT_PIN LOW ]
  /\ same_machine (exec (heat sec) s) s.
Proof.
  intros Hs. split.
  - rewrite heat_events_of. unfold heat_events, Int16.mul, to_ulong.
    rewrite norm_id
      by (unfold Int16.in_range, Int16.min_signed, Int16.max_signed; lia).
    rewrite Z.mod_small by lia. reflexivity.
  - unfold same_machine. rewrite heat_exec. destruct s. reflexivity.
Qed.

Lemma heat_holds_for_the_requested_time_witness :
  0 <= 5 <= 32 /\
  events_of (heat 5) (power_on 0 0) =
    [ EvDigitalWrite HEAT_PIN HIGH; EvDelay 5000; EvDigitalWrite HEAT_PIN LOW ].
Proof.
  split; [lia|].
  apply (heat_holds_for_the_requested_time 5 (power_on 0 0)). lia.
Defined.

(** X7. A negative duration is not treated as zero: for -32 to -1
    seconds the [int] product [1000 * sec] is converted to the
    [unsigned long] parameter of [delay], so the heater stays on for
    [2^32 + 1000 * sec] ms, more than 49 days. *)
Theorem heat_negative_duration (sec : Z) (s : State) :
  -32 <= sec < 0 ->
  events_of (heat sec) s =
    [ EvDigitalWrite HEAT_PIN HIGH; EvDelay (4294967296 + 1000 * sec);
      EvDigitalWrite HEAT_PIN LOW ]
  /\ 4294935296 <= 4294967296 + 1000 * sec.
Proof.
  intros Hs. split; [|lia].
  rewrite heat_events_of. unfold heat_events, Int16.mul, to_ulong.
  rewrite norm_id
    by (unfold Int16.in_range, Int16.min_signed, Int16.max_signed; lia).
  replace ((1000 * sec) mod 4294967296) with (4294967296 + 1000 * sec)
    by (Z.to_euclidean_division_equations; lia).
  reflexivity.
Qed.

Lemma heat_negative_duration_witness :
  -32 <= -1 < 0 /\
  events_of (heat (-1)) (power_on 0 0) =
    [ EvDigitalWrite HEAT_PIN HIGH; EvDelay 4294966296;
      EvDigitalWrite HEAT_PIN LOW ].
Proof.
  split; [lia|].
  apply (heat_negative_duration (-1) (power_on 0 0)). lia.
Defined.

(** X8. The payload determines both readings: read as two big-endian
    16-bit numbers, the four bytes give back the low 16 bits of [gas] and
    of [temp], so two pairs of readings have the same payload only if
    they agree modulo 2^16.  For 10-bit readings the numbers are the
    readings themselves and both high bytes are at most 3. *)
Theorem payload_determines_readings (gas temp gas' temp' : Z) :
  0 <= gas <= 1023 -> 0 <= temp <= 1023 ->
  (exists a b c d : Z,
      pack_values gas temp = [ a; b; c; d ]
      /\ 256 * a + b = gas /\ 256 * c + d = temp
      /\ 0 <= a <= 3 /\ 0 <= c <= 3)
  /\ (exists a b c d : Z,
        pack_values gas' temp' = [ a; b; c; d ]
        /\ 256 * a + b = gas' mod 65536 /\ 256 * c + d = temp' mod 65536)
  /\ (pack_values gas' temp' = pack_values gas temp ->
      gas' mod 65536 = gas /\ temp' mod 65536 = temp).
Proof.
  intros Hg Ht.
  assert (Hdec : forall v, 256 * ((v mod 65536) / 256) + v mod 256
                           = v mod 65536)
    by (intros v; Z.to_euclidean_division_equations; lia).
  split; [|split].
  - exists ((gas mod 65536) / 256), (gas mod 256),
      ((temp mod 65536) / 256), (temp mod 256).
    rewrite pack_values_bytes, !Hdec.
    rewrite (Z.mod_small gas 65536), (Z.mod_small temp 65536) by lia.
    repeat split; try (Z.to_euclidean_division_equations; lia).
  - exists ((gas' mod 65536) / 256), (gas' mod 256),
      ((temp' mod 65536) / 256), (temp' mod 256).
    rewrite pack_values_bytes, !Hdec. repeat split.
  - rewrite !pack_values_bytes. intros H.
    injection H as H1 H2 H3 H4.
    rewrite <- (Hdec gas'), <- (Hdec temp'), H1, H2, H3, H4, !Hdec.
    rewrite (Z.mod_small gas 65536), (Z.mod_small temp 65536) by lia.
    split; reflexivity.
Qed.

Lemma payload_determines_readings_witness :
  0 <= 300 <= 1023 /\ 0 <= 900 <= 1023 /\
  (pack_values (300 + 65536) (900 - 65536) = pack_values 300 900 ->
   (300 + 65536) mod 65536 = 300 /\ (900 - 65536) mod 65536 = 900).
Proof.
  split; [lia|]. split; [lia|].
  apply (payload_determines_readings 300 900 (300 + 65536) (900 - 65536));
    lia.
Defined.

(** ** Further properties of whole runs *)

Lemma run_monitor_app {St : Type} (step : St -> event -> option St)
    (st : St) (l r : list event) :
  run_monitor step st (l ++ r) =
  match run_monitor step st l with
  | Some st' => run_monitor step st' r
  | None => None
  end.
Proof.
  revert st. induction l as [|e l IH]; intros st; [reflexivity|].
  cbn [List.app run_monitor]. destruct (step st e); [apply IH | reflexivity].
Qed.

Lemma run_monitor_cycles {St : Type} (step : St -> event -> option St)
    (st : St) (env : Env) (n k u : nat) :
  (forall k' u', run_monitor step st (cycle_events env k' u') = Some st) ->
  run_monitor step st (cycles_events env n k u) = Some st.
Proof.
  intros H. revert k u. induction n as [|n IH]; intros k u; [reflexivity|].
  cbn [cycles_events]. rewrite run_monitor_app, H. apply IH.
Qed.

Lemma run_monitor_setup_cycles {St : Type} (step : St -> event -> option St)
    (st st' : St) (env : Env) (n : nat) (s : State) :
  run_monitor step st (setup_events env s) = Some st' ->
  (forall k u, run_monitor step st' (cycle_events env k u) = Some st') ->
  run_monitor step st (events_of (sketch env n) s) = Some st'.
Proof.
  intros Hs Hc. rewrite sketch_events, run_monitor_app, Hs.
  apply run_monitor_cycles, Hc.
Qed.

(** X9. In the run of the sketch up to any number of cycles, started with
    the heater off, no conversion, no transmission and no halt happens
    while the heater pin is high, and the heater is off at the end of the
    run: heating is over before the sensors are sampled, and the node
    never sleeps with the heater on. *)
Theorem heater_is_off_outside_the_heating_phase
    (env : Env) (n : nat) (s : State) :
  run_monitor heater_step false (events_of (sketch env n) s) = Some false.
Proof.
  apply run_monitor_setup_cycles.
  - unfold setup_events, bringup_events, join_events, timeout_events.
    destruct (status_query_times_out env); reflexivity.
  - intros k u. unfold cycle_events, sampling_events.
    destruct (arg_order env); reflexivity.
Qed.

(** X10. In the run of the sketch up to any number of cycles, every
    [digitalWrite] goes to a pin that an earlier [pinMode] made an output
    (the reset pin in [resetRN2483], the heater pin in [setup]); no
    [pinMode] of the run makes a pin an input, so no output is ever turned
    back; and the reset line of the radio, pulled low once, ends high. *)
Theorem pins_are_outputs_before_they_are_driven
    (env : Env) (n : nat) (s : State) :
  run_monitor output_step [] (events_of (sketch env n) s)
    = Some [ RST_PIN; HEAT_PIN ]
  /\ count is_pin_input (events_of (sketch env n) s) = O
  /\ run_monitor (level_step RST_PIN) None (events_of (sketch env n) s)
       = Some (Some HIGH)
  /\ run_monitor (level_step HEAT_PIN) None (events_of (sketch env (S n)) s)
       = Some (Some LOW).
Proof.
  split; [|split; [|split]].
  - apply run_monitor_setup_cycles.
    + unfold setup_events, bringup_events, join_events, timeout_events.
      destruct (status_query_times_out env); reflexivity.
    + intros k u. unfold cycle_events, sampling_events.
      destruct (arg_order env); reflexivity.
  - rewrite sketch_events, count_app, startup_only.
    + unfold setup_events, bringup_events, join_events, timeout_events.
      destruct (status_query_times_out env); reflexivity.
    + intros e; destruct e; cbn; trivial; discriminate.
  - apply run_monitor_setup_cycles.
    + unfold setup_events, bringup_events, join_events, timeout_events.
      destruct (status_query_times_out env); reflexivity.
    + intros k u. unfold cycle_events, sampling_events.
      destruct (arg_order env); reflexivity.
  - rewrite sketch_events. cbn [cycles_events].
    assert (Hs : run_monitor (level_step HEAT_PIN) None (setup_events env s)
                 = Some None).
    { unfold setup_events, bringup_events, join_events, timeout_events.
      destruct (status_query_times_out env); reflexivity. }
    assert (Hc : forall k u,
               run_monitor (level_step HEAT_PIN) (Some LOW)
                 (cycle_events env k u) = Some (Some LOW)).
    { intros k u. unfold cycle_events, sampling_events.
      destruct (arg_order env); reflexivity. }
    assert (H1 : run_monitor (level_step HEAT_PIN) None
                   (cycle_events env (adc_reads s) (uplinks s))
                 = Some (Some LOW)).
    { unfold cycle_events, sampling_events.
      destruct (arg_order env); reflexivity. }
    rewrite run_monitor_app, Hs, run_monitor_app, H1.
    apply run_monitor_cycles, Hc.
Qed.

Lemma count_cycles_const (p : event -> bool) (c : nat) (env : Env)
    (n k u : nat) :
  (forall k' u', count p (cycle_events env k' u') = c) ->
  count p (cycles_events env n k u) = (n * c)%nat.
Proof.
  intros H. revert k u. induction n as [|n IH]; intros k u; [reflexivity|].
  cbn [cycles_events]. rewrite count_app, H, IH. reflexivity.
Qed.

Lemma total_delay_app (l r : list event) :
  total_delay (l ++ r) = total_delay l + total_delay r.
Proof.
  induction l as [|e l IH]; [reflexivity|].
  destruct e; cbn [List.app total_delay]; rewrite IH; lia.
Qed.

Lemma total_delay_cycles (env : Env) (n k u : nat) :
  total_delay (cycles_events env n k u) = 8100 * Z.of_nat n.
Proof.
  revert k u. induction n as [|n IH]; intros k u; [reflexivity|].
  cbn [cycles_events]. rewrite total_delay_app, IH, Nat2Z.inj_succ.
  assert (Hc : total_delay (cycle_events env k u) = 8100).
  { unfold cycle_events, sampling_events.
    destruct (arg_order env); reflexivity. }
  rewrite Hc. lia.
Qed.

(** X11. Accounting of a run of [n] cycles: [2 * n] conversions, [n]
    transmissions, [15 * n] halts of one watchdog period each, and
    [200 + 8100 * n] ms spent in [delay] (200 ms for the reset pulse of
    the radio, then 8.1 s per cycle); the conversion and transmission
    counters of the machine advance by [2 * n] and [n]. *)
Theorem run_accounting (env : Env) (n : nat) (s : State) :
  count is_sample (events_of (sketch env n) s) = (2 * n)%nat
  /\ count is_send (events_of (sketch env n) s) = n
  /\ count is_halt (events_of (sketch env n) s) = (15 * n)%nat
  /\ total_delay (events_of (sketch env n) s) = 200 + 8100 * Z.of_nat n
  /\ adc_reads (exec (sketch env n) s) = (adc_reads s + 2 * n)%nat
  /\ uplinks (exec (sketch env n) s) = (uplinks s + n)%nat.
Proof.
  pose proof (sketch_run env n s) as (_ & Ha & Hu).
  rewrite sketch_events, !count_app, total_delay_app, total_delay_cycles.
  rewrite count_send_cycles.
  rewrite (count_cycles_const is_sample 2), (count_cycles_const is_halt 15).
  - unfold setup_events, bringup_events, join_events, timeout_events.
    destruct (status_query_times_out env); cbn; repeat split; lia.
  - intros k u. unfold cycle_events, sampling_events.
    destruct (arg_order env); reflexivity.
  - intros k u. unfold cycle_events, sampling_events.
    destruct (arg_order env); reflexivity.
Qed.

Lemma uplink_calls_app (l r : list event) :
  uplink_calls (l ++ r) = uplink_calls l ++ uplink_calls r.
Proof.
  induction l as [|e l IH]; [reflexivity|].
  destruct e; cbn [List.app uplink_calls]; rewrite IH; reflexivity.
Qed.

Lemma uplink_calls_passes_events (n : nat) : uplink_calls (passes_events n) = [].
Proof.
  induction n as [|n IH]; [reflexivity|].
  cbn [passes_events]. rewrite uplink_calls_app, IH. reflexivity.
Qed.

Lemma uplink_calls_cycle (env : Env) (k u : nat) :
  uplink_calls (cycle_events env k u) = [ (cycle_payload env k, 4, 1) ].
Proof.
  unfold cycle_events, goToSleep_events, sampling_events.
  rewrite !uplink_calls_app, uplink_calls_passes_events.
  destruct (arg_order env); reflexivity.
Qed.

Lemma uplink_calls_setup (env : Env) (s : State) :
  uplink_calls (setup_events env s) = [].
Proof.
  unfold setup_events, bringup_events, join_events, timeout_events.
  destruct (status_query_times_out env); reflexivity.
Qed.

(** X12. The calls to [ttn.sendBytes] in a run of [n] cycles are exactly
    [n], one per cycle and in cycle order, each with length 4 and port 1,
    and the buffer of the [i]-th is packed from the gas and temperature
    codes converted in that same cycle (conversions [2i] and [2i+1] of the
    run): no reading is sent twice, skipped or carried over to a later
    cycle. *)
Theorem uplinks_carry_the_readings_of_their_cycle
    (env : Env) (n : nat) (s : State) :
  uplink_calls (events_of (sketch env n) s) =
  map (fun i =>
         ( pack_values (cycle_gas env (adc_reads s + 2 * i))
                       (cycle_temp env (adc_reads s + 2 * i)), 4, 1 ))
      (seq 0 n).
Proof.
  rewrite sketch_events, uplink_calls_app, uplink_calls_setup.
  cbn [List.app].
  induction n as [|n IH]; [reflexivity|].
  rewrite cycles_events_snoc, uplink_calls_app, IH, uplink_calls_cycle.
  rewrite seq_S, map_app. reflexivity.
Qed.

(** X13. The cycles never touch what [setup] configured: after [setup]
    and any number of cycles the watchdog register still holds 0x61,
    interrupts are enabled, [MCUSR] is as [setupWatchdog] left it, the
    software timer is stopped with its period of 15000 ms (so its handler
    cannot run during a cycle) and [f_wdt] is 0.  [setup] leaves the tick
    counter alone, and every cycle ends with it at zero. *)
Theorem cycles_keep_the_configuration (env : Env) (n : nat) (s : State) :
  WDTCSR (exec (sketch env n) s) = 97
  /\ irq_enabled (exec (sketch env n) s) = true
  /\ MCUSR (exec (sketch env n) s) = Z.land (MCUSR s) 247
  /\ timer2_on (exec (sketch env n) s) = false
  /\ timer2_ms (exec (sketch env n) s) = 15000
  /\ f_wdt (exec (sketch env n) s) = 0
  /\ wdt_cpt (exec (sketch env 0) s) = wdt_cpt s
  /\ wdt_cpt (exec (sketch env (S n)) s) = 0.
Proof.
  assert (Hinv : WDTCSR (exec (sketch env n) s) = 97
                 /\ irq_enabled (exec (sketch env n) s) = true
                 /\ MCUSR (exec (sketch env n) s) = Z.land (MCUSR s) 247
                 /\ timer2_on (exec (sketch env n) s) = false
                 /\ timer2_ms (exec (sketch env n) s) = 15000
                 /\ f_wdt (exec (sketch env n) s) = 0).
  { induction n as [|n IH].
    - cbn [sketch]. rewrite setup_exec, clear_WDRF. destruct s.
      repeat split.
    - change (exec (sketch env (S n)) s)
        with (exec (loop env) (exec (sketch env n) s)).
      rewrite loop_exec. exact IH. }
  destruct Hinv as (H1 & H2 & H3 & H4 & H5 & H6).
  split; [exact H1|]. split; [exact H2|]. split; [exact H3|].
  split; [exact H4|]. split; [exact H5|]. split; [exact H6|].
  split.
  - cbn [sketch]. rewrite setup_exec. destruct s. reflexivity.
  - change (exec (sketch env (S n)) s)
      with (exec (loop env) (exec (sketch env n) s)).
    rewrite loop_exec. reflexivity.
Qed.

(** X14. Splitting a sleep in two can lose a tick: for non-negative [a]
    and [b] whose sum is an [int], [goToSleep a] followed by [goToSleep b]
    halts [floor (a/8) + floor (b/8)] times, which is the number of halts
    of [goToSleep (a + b)] or one less. *)
Theorem goToSleep_twice (a b : Z) (s : State) :
  0 <= a -> 0 <= b -> a + b <= Int16.max_signed ->
  count is_halt (events_of (goToSleep a ;; goToSleep b) s)
    = (Z.to_nat (a / 8) + Z.to_nat (b / 8))%nat
  /\ (count is_halt (events_of (goToSleep a ;; goToSleep b) s)
      <= count is_halt (events_of (goToSleep (a + b)) s)
      <= count is_halt (events_of (goToSleep a ;; goToSleep b) s) + 1)%nat.
Proof.
  intros Ha Hb Hab.
  assert (Hra : Int16.in_range a)
    by (unfold Int16.in_range, Int16.min_signed, Int16.max_signed in *; lia).
  assert (Hrb : Int16.in_range b)
    by (unfold Int16.in_range, Int16.min_signed, Int16.max_signed in *; lia).
  assert (Hrab : Int16.in_range (a + b))
    by (unfold Int16.in_range, Int16.min_signed, Int16.max_signed in *; lia).
  assert (He : events_of (goToSleep a ;; goToSleep b) s
               = goToSleep_events a ++ goToSleep_events b).
  { apply events_of_trace. rewrite exec_bind, !goToSleep_exec.
    destruct s. cbn [trace set_trace set_wdt_cpt].
    rewrite <- app_assoc. reflexivity. }
  rewrite He, count_app, !halts_goToSleep_events, goToSleep_halts.
  rewrite (shr3_div8 a Hra), (shr3_div8 b Hrb), (shr3_div8 (a + b) Hrab).
  split; [reflexivity|].
  Z.to_euclidean_division_equations. lia.
Qed.

Lemma goToSleep_twice_witness :
  0 <= 12 /\ 0 <= 12 /\ 12 + 12 <= Int16.max_signed /\
  count is_halt (events_of (goToSleep 12 ;; goToSleep 12) (power_on 0 0))
    = 2%nat.
Proof.
  assert (H1 : 0 <= 12) by lia.
  assert (H2 : 12 + 12 <= Int16.max_signed) by (unfold Int16.max_signed; lia).
  split; [exact H1|]. split; [exact H1|]. split; [exact H2|].
  apply (goToSleep_twice 12 12 (power_on 0 0) H1 H1 H2).
Defined.
